(** * Budget tracker: the expense ledger and its summary

    A shallow embedding of [expense.py], [budget.py] and the [summary]
    part of [analytics.py], followed by the properties of the ledger.

    Conventions of the embedding.
    - A Python [str] is a [string] whose characters are the code points
      below 256; [str.lower] and [str.strip] are written out on that range.
    - A Python [float] amount is an exact rational ([Q]): the binary
      rounding of float arithmetic, infinities and NaN are outside the
      model.  The text form of a float ([repr], as [csv] writes it) and
      its parsing ([float(s)]) are an interface, [FloatText].  What
      depends on the rounding of floats, the percents of [summary], is
      stated on IEEE doubles, in [Doubles].
    - An argument that may be [None] is an [option]; a call that may raise
      returns a [Result].
    - [uuid.uuid4()] and [datetime.today()] are read from an explicit
      environment [Env].
    - The ledger holds expense values; each slot of [self.expenses] stands
      for its own object, which is how [_load] and the web layer fill it
      (one freshly constructed [Expense] per [add]).
    - The file at [Budget.FILE] is the list of rows the [csv] module
      writes and reads back, each row a list of text fields. *)

From Stdlib Require Import List String Ascii Bool Arith ZArith NArith.
From Stdlib Require Import QArith Qround Qabs Lia Lqa Permutation DecimalString.
From Stdlib Require Import Sorted.
From Stdlib Require Import Floats.PrimFloat Floats.SpecFloat Floats.FloatOps.
Import ListNotations.
Close Scope Q_scope.
Open Scope string_scope.
Open Scope list_scope.

Set Implicit Arguments.

(** ** Python values and built-ins *)

Module Py.

Inductive exn : Type :=
| ValueError | TypeError | AttributeError | KeyError | ZeroDivisionError.

Inductive Result (A : Type) : Type :=
| Ok (a : A)
| Raise (e : exn).
Arguments Ok {A} a.
Arguments Raise {A} e.

(** [bool(s)] for an optional string: [None] and [""] are falsy. *)
Definition truthy (s : option string) : bool :=
  match s with
  | Some (String _ _) => true
  | _ => false
  end.

(** [a or b] where [a] is a string or [None] and [b] a string. *)
Definition or_ (a : option string) (b : string) : string :=
  match a with
  | Some (String c r) => String c r
  | _ => b
  end.

Definition between (lo hi n : N) : bool := (lo <=? n)%N && (n <=? hi)%N.

(** [str.lower] on one code point below 256: A-Z, and the upper-case
    letters U+00C0..U+00DE except the sign U+00D7. *)
Definition lower_char (c : ascii) : ascii :=
  let n := N_of_ascii c in
  if between 65 90 n then ascii_of_N (n + 32)
  else if between 192 222 n && negb (n =? 215)%N then ascii_of_N (n + 32)
  else c.

Fixpoint lower (s : string) : string :=
  match s with
  | EmptyString => EmptyString
  | String c r => String (lower_char c) (lower r)
  end.

(** [str.isspace] on one code point below 256. *)
Definition isspace (c : ascii) : bool :=
  let n := N_of_ascii c in
  between 9 13 n || between 28 32 n || (n =? 133)%N || (n =? 160)%N.

Fixpoint lstrip (s : string) : string :=
  match s with
  | EmptyString => EmptyString
  | String c r => if isspace c then lstrip r else s
  end.

Fixpoint rstrip (s : string) : string :=
  match s with
  | EmptyString => EmptyString
  | String c r =>
      match rstrip r with
      | EmptyString => if isspace c then EmptyString else String c EmptyString
      | r' => String c r'
      end
  end.

(** [s.strip()] *)
Definition strip (s : string) : string := rstrip (lstrip s).

(** [s.startswith(p)] *)
Definition startswith (s p : string) : bool := String.prefix p s.

(** [x in xs] for a list of strings. *)
Definition in_ (x : string) (xs : list string) : bool :=
  existsb (String.eqb x) xs.

(** The text interface of floats: [repr_float x] is the text [csv]
    writes for the float [x]; [float_of_str s] is [float(s)], [None]
    when Python raises [ValueError]. *)
Class FloatText : Type := {
  repr_float : Q -> string;
  float_of_str : string -> option Q
}.

(** The argument of [float(...)]: a float, a string or [None]. *)
Inductive num_arg : Type :=
| AFloat (x : Q)
| AStr (s : string)
| ANone.

Definition float_ `{FloatText} (v : num_arg) : Result Q :=
  match v with
  | AFloat x => Ok x
  | AStr s =>
      match float_of_str s with
      | Some x => Ok x
      | None => Raise ValueError
      end
  | ANone => Raise TypeError
  end.

(** A dict with string keys, in insertion order. *)
Section Dict.
Variable V : Type.

Definition dict : Type := list (string * V).

Fixpoint get (k : string) (d : dict) : option V :=
  match d with
  | [] => None
  | (k', v) :: r => if String.eqb k k' then Some v else get k r
  end.

(** [d[k] = v]: in place when the key is there, else at the end. *)
Fixpoint set (k : string) (v : V) (d : dict) : dict :=
  match d with
  | [] => [(k, v)]
  | (k', v') :: r =>
      if String.eqb k k' then (k', v) :: r else (k', v') :: set k v r
  end.

(** [d[k]], raising [KeyError]. *)
Definition item (k : string) (d : dict) : Result V :=
  match get k d with
  | Some v => Ok v
  | None => Raise KeyError
  end.
End Dict.

(** The environment a constructor call reads: the 128-bit value of
    [uuid.uuid4()] and the text of [datetime.today()] as
    [strftime("%Y-%m-%d")] prints it. *)
Record Env : Type := { uuid4 : N; today : string }.

Definition hex_digit (n : N) : ascii :=
  if (n <? 10)%N then ascii_of_N (48 + n) else ascii_of_N (87 + n).

Fixpoint hex_digits (k : nat) (n : N) (acc : string) : string :=
  match k with
  | O => acc
  | S k' => hex_digits k' (n / 16)%N (String (hex_digit (n mod 16)%N) acc)
  end.

(** [str(u)[:8]]: the eight hexadecimal digits of the top 32 bits. *)
Definition uuid_str8 (u : N) : string :=
  hex_digits 8 ((u / 2 ^ 96) mod 2 ^ 32)%N EmptyString.

End Py.
Import Py.

(** Sequencing of calls that may raise. *)
Definition bindR {A B : Type} (r : Result A) (k : A -> Result B) : Result B :=
  match r with
  | Ok a => k a
  | Raise e => Raise e
  end.

Notation "x <-? r ;; k" := (bindR r (fun x => k))
  (at level 61, r at next level, right associativity).

(** ** expense.py *)

Module Expense.

Record t : Type := mk {
  id : string;
  amount : Q;
  category : string;
  description : string;
  date : string
}.

Definition CATEGORIES : list string :=
  ["Food"; "Transport"; "Housing"; "Health";
   "Entertainment"; "Shopping"; "Education"; "Other"].

(** [category if category in self.CATEGORIES else "Other"] *)
Definition normalize_category (category : option string) : string :=
  match category with
  | Some c => if in_ c CATEGORIES then c else "Other"
  | None => "Other"
  end.

(** [Expense(amount, category, description, date_str, expense_id)].
    [float(amount)] raises for text that is no number and for [None];
    [description.strip()] raises for [None]. *)
Definition __init__ `{FloatText} (env : Env)
    (amount : num_arg) (category description : option string)
    (date_str expense_id : option string) : Result t :=
  let id_ := or_ expense_id (uuid_str8 (uuid4 env)) in
  amount_ <-? float_ amount ;;
  let category_ := normalize_category category in
  description_ <-? match description with
                   | Some d => Ok (strip d)
                   | None => Raise AttributeError
                   end ;;
  let date_ := or_ date_str (today env) in
  Ok (mk id_ amount_ category_ description_ date_).

(** A value of the dict [to_dict] builds: text or a float. *)
Inductive value : Type :=
| VStr (s : string)
| VFloat (x : Q).

Definition to_dict (self : t) : dict value :=
  [("id", VStr (id self));
   ("amount", VFloat (amount self));
   ("category", VStr (category self));
   ("description", VStr (description self));
   ("date", VStr (date self))].

(** [from_dict] on a row of [csv.DictReader]: every value is text, or
    [None] where the row was short. *)
Definition from_dict `{FloatText} (env : Env) (d : dict (option string))
  : Result t :=
  a <-? item "amount" d ;;
  c <-? item "category" d ;;
  s <-? item "description" d ;;
  dt <-? item "date" d ;;
  i <-? item "id" d ;;
  __init__ env (match a with Some x => AStr x | None => ANone end) c s dt i.

End Expense.

(** ** The csv module, at the level of rows *)

Module Csv.

(** A file: its rows in order, each a list of fields. *)
Definition file : Type := list (list string).

(** [str(v)] as [csv.writer] renders a field. *)
Definition field_text `{FloatText} (v : Expense.value) : string :=
  match v with
  | Expense.VStr s => s
  | Expense.VFloat x => repr_float x
  end.

(** [DictWriter.writerow]: the fields in the order of [fieldnames], a
    missing key written as the empty text. *)
Definition writerow `{FloatText} (fieldnames : list string)
    (d : dict Expense.value) : list string :=
  map (fun k => match get k d with
                | Some v => field_text v
                | None => EmptyString
                end) fieldnames.

(** [dict(zip(fieldnames, row))] with the names beyond the row set to
    [None]; fields beyond the names are kept under a key no lookup of
    this program uses and are left out. *)
Fixpoint zip_row (fieldnames row : list string) (d : dict (option string))
  : dict (option string) :=
  match fieldnames with
  | [] => d
  | k :: ks =>
      match row with
      | [] => zip_row ks [] (set k None d)
      | v :: vs => zip_row ks vs (set k (Some v) d)
      end
  end.

Definition is_blank (row : list string) : bool :=
  match row with [] => true | _ => false end.

(** [csv.DictReader]: the first row names the fields, blank rows are
    skipped, every other row becomes a dict. *)
Definition DictReader (f : file) : list (dict (option string)) :=
  match f with
  | [] => []
  | fieldnames :: rows =>
      map (fun row => zip_row fieldnames row [])
          (filter (fun row => negb (is_blank row)) rows)
  end.

End Csv.

(** ** budget.py *)

Module Budget.

Definition FIELDNAMES : list string :=
  ["id"; "amount"; "category"; "description"; "date"].

(** The state the methods of [Budget] act on: the list [self.expenses]
    and the content of the file at [Budget.FILE] ([None]: no file). *)
Record t : Type := mk {
  expenses : list Expense.t;
  disk : option Csv.file
}.

(** A method: it reads and changes the state and returns or raises; the
    state reached when it raises is kept, as in Python. *)
Definition M (A : Type) : Type := t -> Result A * t.

Definition ret {A : Type} (a : A) : M A := fun s => (Ok a, s).

Definition bind {A B : Type} (m : M A) (k : A -> M B) : M B :=
  fun s =>
    match m s with
    | (Ok a, s') => k a s'
    | (Raise e, s') => (Raise e, s')
    end.

Definition lift {A : Type} (r : Result A) : M A := fun s => (r, s).

Definition get_expenses : M (list Expense.t) := fun s => (Ok (expenses s), s).

Definition set_expenses (l : list Expense.t) : M unit :=
  fun s => (Ok tt, mk l (disk s)).

Definition read_file : M (option Csv.file) := fun s => (Ok (disk s), s).

Definition write_file (f : Csv.file) : M unit :=
  fun s => (Ok tt, mk (expenses s) (Some f)).

Notation "x <- m ;; k" := (bind m (fun x => k))
  (at level 61, m at next level, right associativity).
Notation "m ;;; k" := (bind m (fun _ => k))
  (at level 61, right associativity).

(** The loop of [_load]; [envs i] is the environment the constructor
    call of the [i]-th row reads. *)
Fixpoint load_rows `{FloatText} (envs : nat -> Env) (i : nat)
    (rows : list (dict (option string))) : M unit :=
  match rows with
  | [] => ret tt
  | row :: rest =>
      e <- lift (Expense.from_dict (envs i) row) ;;
      l <- get_expenses ;;
      set_expenses (l ++ [e]) ;;;
      load_rows envs (S i) rest
  end.

Definition _load `{FloatText} (envs : nat -> Env) : M unit :=
  f <- read_file ;;
  match f with
  | None => ret tt
  | Some rows => load_rows envs 0 (Csv.DictReader rows)
  end.

(** [Budget()]: an empty list, then [_load]. *)
Definition __init__ `{FloatText} (envs : nat -> Env) (file : option Csv.file)
  : Result unit * t :=
  _load envs (mk [] file).

Definition _save `{FloatText} : M unit :=
  l <- get_expenses ;;
  write_file
    (FIELDNAMES ::
     map (fun exp => Csv.writerow FIELDNAMES (Expense.to_dict exp)) l).

Definition add `{FloatText} (expense : Expense.t) : M Expense.t :=
  l <- get_expenses ;;
  set_expenses (l ++ [expense]) ;;;
  _save ;;;
  ret expense.

Definition read_all (category month : option string) : M (list Expense.t) :=
  result <- get_expenses ;;
  let result :=
    match category with
    | Some (String _ _ as c) =>
        filter (fun e => String.eqb (lower (Expense.category e)) (lower c))
               result
    | _ => result
    end in
  let result :=
    match month with
    | Some (String _ _ as m) =>
        filter (fun e => startswith (Expense.date e) m) result
    | _ => result
    end in
  ret result.

(** The keyword arguments of [update]: each field given or not. *)
Record kwargs : Type := {
  kw_amount : option num_arg;
  kw_category : option string;
  kw_description : option string;
  kw_date : option string
}.

(** The assignments of [update] on the record it found. *)
Definition assign `{FloatText} (exp : Expense.t) (kw : kwargs)
  : Result Expense.t :=
  amount_ <-? match kw_amount kw with
              | Some v => float_ v
              | None => Ok (Expense.amount exp)
              end ;;
  let category_ :=
    match kw_category kw with
    | Some c => if in_ c Expense.CATEGORIES then c else Expense.category exp
    | None => Expense.category exp
    end in
  let description_ :=
    match kw_description kw with
    | Some d => strip d
    | None => Expense.description exp
    end in
  let date_ :=
    match kw_date kw with
    | Some d => d
    | None => Expense.date exp
    end in
  Ok (Expense.mk (Expense.id exp) amount_ category_ description_ date_).

(** The loop of [update]: [seen] are the records passed over. *)
Fixpoint update_loop `{FloatText} (expense_id : string) (kw : kwargs)
    (seen rest : list Expense.t) : M (option Expense.t) :=
  match rest with
  | [] => ret None
  | exp :: rest' =>
      if String.eqb (Expense.id exp) expense_id then
        exp' <- lift (assign exp kw) ;;
        set_expenses (seen ++ exp' :: rest') ;;;
        _save ;;;
        ret (Some exp')
      else update_loop expense_id kw (seen ++ [exp]) rest'
  end.

Definition update `{FloatText} (expense_id : string) (kw : kwargs)
  : M (option Expense.t) :=
  l <- get_expenses ;;
  update_loop expense_id kw [] l.

Definition delete `{FloatText} (expense_id : string) : M bool :=
  l <- get_expenses ;;
  let original := List.length l in
  set_expenses
    (filter (fun e => negb (String.eqb (Expense.id e) expense_id)) l) ;;;
  l' <- get_expenses ;;
  if Nat.ltb (List.length l') original then _save ;;; ret true else ret false.

(** [sum(xs)]: from 0, left to right. *)
Definition sum (xs : list Q) : Q := fold_left Qplus xs 0%Q.

Definition total (category month : option string) : M Q :=
  l <- read_all category month ;;
  ret (sum (map Expense.amount l)).

End Budget.

(** ** analytics.py: the summary *)

Module Analytics.

Import Budget.

(** [totals[e.category] += e.amount] over a [defaultdict(float)]; the
    keys stay in the order of their first record. *)
Definition _by_category (expenses : list Expense.t) : dict Q :=
  fold_left
    (fun totals e =>
       let old := match get (Expense.category e) totals with
                  | Some x => x
                  | None => 0%Q
                  end in
       set (Expense.category e) (old + Expense.amount e)%Q totals)
    expenses [].

(** [sorted(items, key=lambda x: -x[1])]: the stable sort by the negated
    amount, written as an insertion sort. *)
Fixpoint insert (x : string * Q) (l : list (string * Q)) : list (string * Q) :=
  match l with
  | [] => [x]
  | y :: r =>
      if Qle_bool (- snd x) (- snd y) then x :: y :: r else y :: insert x r
  end.

Fixpoint sorted (l : list (string * Q)) : list (string * Q) :=
  match l with
  | [] => []
  | x :: r => insert x (sorted r)
  end.

(** [a / b] on floats. *)
Definition truediv (a b : Q) : Result Q :=
  if Qeq_bool b 0 then Raise ZeroDivisionError else Ok (a / b)%Q.

(** The nearest integer, a tie going to the even one. *)
Definition round_half_even (x : Q) : Z :=
  let f := Qfloor x in
  match (x - inject_Z f ?= 1 # 2)%Q with
  | Lt => f
  | Gt => (f + 1)%Z
  | Eq => if Z.even f then f else (f + 1)%Z
  end.

(** [round(x, 1)] *)
Definition round1 (x : Q) : Q := (round_half_even (x * 10) # 10)%Q.

(** [bool(x)] for a float. *)
Definition nonzero (x : Q) : bool := negb (Qeq_bool x 0).

Record row : Type := {
  category : string;
  amount : Q;
  percent : Q
}.

Record report : Type := {
  total : Q;
  count : nat;
  breakdown : list row
}.

(** [round(amt / total * 100, 1) if total else 0] *)
Definition percent_of (amt total_ : Q) : Result Q :=
  if nonzero total_ then
    q <-? truediv amt total_ ;;
    Ok (round1 (q * 100))
  else Ok 0%Q.

Fixpoint rows_of (items : list (string * Q)) (total_ : Q)
  : Result (list row) :=
  match items with
  | [] => Ok []
  | (cat, amt) :: rest =>
      p <-? percent_of amt total_ ;;
      rs <-? rows_of rest total_ ;;
      Ok (Build_row cat amt p :: rs)
  end.

Definition summary (month : option string) : M report :=
  expenses <- read_all None month ;;
  let total_ := sum (map Expense.amount expenses) in
  let by_cat := _by_category expenses in
  breakdown_ <- lift (rows_of (sorted by_cat) total_) ;;
  ret (Build_report total_ (List.length expenses) breakdown_).

(** The loop the three groupings share: [totals[key(e)] += e.amount]
    over a [defaultdict(float)]. *)
Definition totals_by (key : Expense.t -> string) (expenses : list Expense.t)
  : dict Q :=
  fold_left
    (fun totals e =>
       let old := match get (key e) totals with
                  | Some x => x
                  | None => 0%Q
                  end in
       set (key e) (old + Expense.amount e)%Q totals)
    expenses [].

(** [a < b] on two items [(key, value)], the way Python compares
    tuples: by the keys, and by the values when the keys are equal. *)
Definition item_lt (a b : string * Q) : bool :=
  match String.compare (fst a) (fst b) with
  | Lt => true
  | Gt => false
  | Eq => negb (Qle_bool (snd b) (snd a))
  end.

(** [sorted(totals.items())]: the stable sort by [<], written as an
    insertion sort. *)
Fixpoint insert_item (x : string * Q) (l : list (string * Q))
  : list (string * Q) :=
  match l with
  | [] => [x]
  | y :: r => if item_lt y x then y :: insert_item x r else x :: y :: r
  end.

Fixpoint sorted_items (l : list (string * Q)) : list (string * Q) :=
  match l with
  | [] => []
  | x :: r => insert_item x (sorted_items r)
  end.

(** [dict(items)]: the items set one after the other. *)
Definition dict_of (items : list (string * Q)) : dict Q :=
  fold_left (fun d kv => set (fst kv) (snd kv) d) items [].

Definition _by_day (expenses : list Expense.t) : dict Q :=
  dict_of (sorted_items (totals_by Expense.date expenses)).

(** [e.date[:7]] *)
Definition month_of (e : Expense.t) : string :=
  substring 0 7 (Expense.date e).

Definition _by_month (expenses : list Expense.t) : dict Q :=
  dict_of (sorted_items (totals_by month_of expenses)).

End Analytics.

(** ** app.py: the routes that need no text formatting

    A route runs on the ledger of the module, [budget]; it answers with a
    response and, for [delete], with the message it flashes. *)

Module App.

Import Budget.

(** [request.args.get(name, "")] *)
Definition arg (name : string) (args : dict string) : string :=
  match get name args with
  | Some v => v
  | None => EmptyString
  end.

(** [s if s else None] *)
Definition if_given (s : string) : option string :=
  match s with
  | EmptyString => None
  | _ => Some s
  end.

(** The keyword arguments [index] passes to the template. *)
Record context : Type := {
  expenses : list Expense.t;
  total : Q;
  categories : list string;
  selected_category : string;
  selected_month : string
}.

Inductive response : Type :=
| Render (template : string) (ctx : context)
| Redirect (endpoint : string)
| Json (body : dict Expense.value) (status : nat).

Definition index (args : dict string) : M response :=
  let category := arg "category" args in
  let month := arg "month" args in
  expenses_ <- read_all (if_given category) (if_given month) ;;
  let total_ := sum (map Expense.amount expenses_) in
  ret (Render "index.html"
         (Build_context expenses_ total_ Expense.CATEGORIES category month)).

(** [next((e for e in expenses if e.id == expense_id), None)] *)
Definition first_with (expense_id : string) (l : list Expense.t)
  : option Expense.t :=
  find (fun e => String.eqb (Expense.id e) expense_id) l.

Definition edit (expense_id : string) : M response :=
  expenses_ <- read_all None None ;;
  match first_with expense_id expenses_ with
  | None => ret (Json [("error", Expense.VStr "Not found")] 404)
  | Some exp => ret (Json (Expense.to_dict exp) 200)
  end.

(** The message and the category of a [flash] call. *)
Definition flashed : Type := (string * string)%type.

Definition delete `{FloatText} (expense_id : string)
  : M (flashed * response) :=
  success <- Budget.delete expense_id ;;
  ret ((if success then "Expense deleted." else "Not found.",
        if success then "success" else "danger"),
       Redirect "index").

End App.

(** ** A text form of floats for the examples

    Plain decimal text: an optional sign, digits, a point and digits.
    [repr_float] prints a rational with a finite decimal expansion the way
    Python prints the float of that value (["100.0"], ["12.5"]); Python's
    exponent forms, [inf] and [nan] are left out. *)

Module DecimalText.

Definition digits (n : N) : string :=
  DecimalString.NilZero.string_of_uint (N.to_uint n).

Definition number (s : string) : option N :=
  option_map N.of_uint (DecimalString.NilZero.uint_of_string s).

Fixpoint split_point (s : string) : string * option string :=
  match s with
  | EmptyString => (EmptyString, None)
  | String c r =>
      if Ascii.eqb c "."%char then (EmptyString, Some r)
      else let (a, b) := split_point r in (String c a, b)
  end.

Definition parse (s : string) : option Q :=
  let (negative, body) :=
    match s with
    | String "-"%char r => (true, r)
    | _ => (false, s)
    end in
  let signed (n : N) : Z := if negative then (- Z.of_N n)%Z else Z.of_N n in
  match split_point body with
  | (i, None) => option_map (fun n => inject_Z (signed n)) (number i)
  | (i, Some f) =>
      match number i, number f with
      | Some ni, Some nf =>
          let scale := (10 ^ N.of_nat (String.length f))%N in
          Some (Qred (signed (ni * scale + nf)%N
                      # Pos.pred (N.succ_pos scale)))
      | _, _ => None
      end
  end.

(** The least [k >= 1] with [d] dividing [10 ^ k], searched up to a bound. *)
Fixpoint scale_of (fuel : nat) (k : N) (d : N) : option N :=
  match fuel with
  | O => None
  | S fuel' =>
      if ((10 ^ k) mod d =? 0)%N then Some k else scale_of fuel' (k + 1)%N d
  end.

Fixpoint pad (k : nat) (s : string) : string :=
  match k with
  | O => s
  | S k' => pad k' (String "0"%char s)
  end.

Definition print (x : Q) : string :=
  let r := Qred x in
  let d := Npos (Qden r) in
  match scale_of 400 1 d with
  | None => "nan"
  | Some k =>
      let m := (Z.abs_N (Qnum r) * (10 ^ k / d))%N in
      let frac := digits (m mod 10 ^ k)%N in
      (if (Qnum r <? 0)%Z then "-" else "") ++
      digits (m / 10 ^ k)%N ++ "." ++
      pad (N.to_nat k - String.length frac) frac
  end.

#[export] Instance float_text : FloatText :=
  {| repr_float := print; float_of_str := parse |}.

End DecimalText.

(** ** Vocabulary of the statements *)

Section Vocabulary.

Context `{FT : FloatText}.

(** The rows [_save] writes for a list of records. *)
Definition rows_of_expenses (l : list Expense.t) : Csv.file :=
  Budget.FIELDNAMES ::
  map (fun exp => Csv.writerow Budget.FIELDNAMES (Expense.to_dict exp)) l.

(** The two filters of [read_all]. *)
Definition by_category_filter (category : option string)
    (l : list Expense.t) : list Expense.t :=
  match category with
  | Some (String _ _ as c) =>
      filter (fun e => String.eqb (lower (Expense.category e)) (lower c)) l
  | _ => l
  end.

Definition by_month_filter (month : option string)
    (l : list Expense.t) : list Expense.t :=
  match month with
  | Some (String _ _ as m) =>
      filter (fun e => startswith (Expense.date e) m) l
  | _ => l
  end.

Definition id_is (expense_id : string) (e : Expense.t) : bool :=
  String.eqb (Expense.id e) expense_id.

(** Equality of two expense values is decidable. *)
Definition expense_eq_dec (x y : Expense.t) : {x = y} + {x <> y}.
Proof.
  decide equality; try apply string_dec.
  decide equality; [apply Pos.eq_dec | apply Z.eq_dec].
Defined.

Definition ids (l : list Expense.t) : list string := map Expense.id l.

(** What the data model asks of one stored expense, and of the list. *)
Definition well_formed (e : Expense.t) : Prop :=
  Expense.id e <> EmptyString /\ In (Expense.category e) Expense.CATEGORIES.

Definition stored_invariant (l : list Expense.t) : Prop :=
  Forall well_formed l /\ NoDup (ids l).

(** The states of a ledger: built by [Budget()] from any file, then
    changed by [add] of a constructed expense, [update] and [delete]. *)
Inductive reachable : Budget.t -> Prop :=
| reach_init envs file b :
    Budget.__init__ envs file = (Ok tt, b) -> reachable b
| reach_add b env amount category description date_str expense_id e :
    reachable b ->
    Expense.__init__ env amount category description date_str expense_id
      = Ok e ->
    reachable (snd (Budget.add e b))
| reach_update b expense_id kw :
    reachable b -> reachable (snd (Budget.update expense_id kw b))
| reach_delete b expense_id :
    reachable b -> reachable (snd (Budget.delete expense_id b)).

(** The keyword arguments without the category. *)
Definition without_category (kw : Budget.kwargs) : Budget.kwargs :=
  {| Budget.kw_amount := Budget.kw_amount kw;
     Budget.kw_category := None;
     Budget.kw_description := Budget.kw_description kw;
     Budget.kw_date := Budget.kw_date kw |}.

(** The records [read_all] is said to return: a category filter, when
    given, asks for the same category up to case; a month filter, when
    given, asks for a date that starts with it. *)
Definition selected_as_stated (category month : option string)
    (e : Expense.t) : bool :=
  match category with
  | Some c => String.eqb (lower (Expense.category e)) (lower c)
  | None => true
  end &&
  match month with
  | Some m => startswith (Expense.date e) m
  | None => true
  end.

(** The same, with a category filter that counts only when it is given
    and not the empty string. *)
Definition selected (category month : option string)
    (e : Expense.t) : bool :=
  match category with
  | Some (String _ _ as c) =>
      String.eqb (lower (Expense.category e)) (lower c)
  | _ => true
  end &&
  match month with
  | Some m => startswith (Expense.date e) m
  | None => true
  end.



End Vocabulary.

(** ** Sample data

    The three records of the worked scenario and a few ledgers built
    from them, with the decimal text form of floats. *)

Module Sample.

Import DecimalText.

Definition env : Env :=
  {| uuid4 := 0x3f2a9c4e1b7d4a60a5c30f1e2d3c4b5a; today := "2024-07-01" |}.

Definition lunch : Expense.t :=
  Expense.mk "a1" 100 "Food" "lunch" "2024-05-01".

Definition bus : Expense.t :=
  Expense.mk "b2" 50 "Transport" "bus" "2024-05-02".

Definition groceries : Expense.t :=
  Expense.mk "c3" 200 "Food" "groceries" "2024-06-01".

(** A second expense constructed with the id of [lunch]. *)
Definition snack : Expense.t :=
  Expense.mk "a1" (25 # 2) "Food" "snack" "2024-05-03".

Definition refund : Expense.t :=
  Expense.mk "d4" 0 "Shopping" "refund" "2024-06-02".

(** [Budget()] where no file exists. *)
Definition empty : Budget.t := snd (Budget.__init__ (fun _ => env) None).

Definition ledger : Budget.t :=
  snd (Budget.add groceries (snd (Budget.add bus (snd (Budget.add lunch empty))))).

Definition twice : Budget.t :=
  snd (Budget.add snack (snd (Budget.add lunch empty))).



(** [update("a1", category="Bogus")] *)
Definition bogus_category : Budget.kwargs :=
  {| Budget.kw_amount := None; Budget.kw_category := Some "Bogus";
     Budget.kw_description := None; Budget.kw_date := None |}.

(** [update("b2", amount="7.25", description=" tram ")] *)
Definition new_amount : Budget.kwargs :=
  {| Budget.kw_amount := Some (AStr "7.25"); Budget.kw_category := None;
     Budget.kw_description := Some " tram "; Budget.kw_date := None |}.

Definition zero_total : Budget.t := snd (Budget.add refund empty).

Definition two : Budget.t := snd (Budget.add bus (snd (Budget.add lunch empty))).

End Sample.


(** ** Further vocabulary *)

Section MoreVocabulary.

Context `{FT : FloatText}.

(** A record whose description has no white space at either end. *)
Definition trimmed (e : Expense.t) : Prop :=
  strip (Expense.description e) = Expense.description e.

(** The file holds what [_save] writes for the list in memory. *)
Definition synced (b : Budget.t) : Prop :=
  Budget.disk b = Some (rows_of_expenses (Budget.expenses b)).



Definition keys (d : dict Q) : list string := map fst d.

(** [totals.get(k, 0)] *)
Definition value_at (k : string) (d : dict Q) : Q :=
  match get k d with
  | Some x => x
  | None => 0%Q
  end.

(** The amounts of the records a key function sends to [k]. *)
Definition amounts_with (key : Expense.t -> string) (k : string)
    (l : list Expense.t) : list Q :=
  map Expense.amount (filter (fun e => String.eqb (key e) k) l).

(** One turn of the grouping loop of [Analytics.totals_by]. *)
Definition group_step (key : Expense.t -> string) (totals : dict Q)
    (e : Expense.t) : dict Q :=
  set (key e) (value_at (key e) totals + Expense.amount e)%Q totals.


(** [b] is not below [a] in the order of items. *)
Definition not_after (a b : string * Q) : Prop :=
  Analytics.item_lt b a = false.

End MoreVocabulary.


(** ** More sample data: files as a user may have left them *)

Module SampleFiles.

Import DecimalText.

(** Two rows to load: one as [_save] writes it, one edited by hand with
    no id, an unknown category, a padded description and no date. *)
Definition rows : list (list string) :=
  [["a1"; "100.0"; "Food"; "lunch"; "2024-05-01"];
   [""; "7.25"; "Snacks"; " tea "; ""]].




(** [bus] after [update("b2", amount="7.25", description=" tram ")]. *)
Definition tram : Expense.t :=
  Expense.mk "b2" (29 # 4) "Transport" "tram" "2024-05-02".

(** The query [?category=food&month=]. *)
Definition query : dict string := [("category", "food"); ("month", "")].

End SampleFiles.


(** ** The arithmetic of [summary] on doubles

    What [summary] computes with the amounts as they are in Python:
    IEEE binary64 floats, with their rounding, infinities and NaN.  The
    input is the list [read_all] returned, each record as its category
    and its amount.  Two built-ins are arguments of the model: [sum],
    whose result on floats depends on the version of Python, and
    [sorted], whose result is its own when a key is NaN. *)

Module Doubles.

(** [bool(x)]: every float but the two zeros. *)
Definition truthy (x : float) : bool := negb (PrimFloat.eqb x 0).

(** [a / b] *)
Definition truediv (a b : float) : Result float :=
  if PrimFloat.eqb b 0 then Raise ZeroDivisionError else Ok (a / b)%float.

(** The double nearest to [n / 10], for [0 <= n < 2 ^ 53], with a sign. *)
Definition tenths (negative : bool) (n : Z) : float :=
  let p := (SF2Prim match n with
                    | Zpos k => S754_finite false k 0
                    | _ => S754_zero false
                    end / 10)%float in
  if negative then (- p)%float else p.

(** [round(x, 1)]: zeros, infinities and NaN are returned as they are;
    a finite [x = m * 2 ^ e] is rounded, as the exact number it is, to
    the nearest multiple of one tenth, a tie going to the even one, and
    the double nearest to that decimal is returned.  From [e = -3] on
    the doubles are an eighth or more apart, so [x] is that double. *)
Definition round1 (x : float) : float :=
  match Prim2SF x with
  | S754_finite s m e =>
      if (e <? -3)%Z
      then tenths s (Analytics.round_half_even
                       ((Zpos m * 10) # (2 ^ Z.to_pos (- e))))
      else x
  | _ => x
  end.

(** [sum(xs)] as Python computes it up to version 3.11: from 0, left to
    right. *)
Definition sum (xs : list float) : float := fold_left PrimFloat.add xs 0%float.

(** [totals[e.category] += e.amount] over a [defaultdict(float)]. *)
Definition _by_category (expenses : list (string * float)) : dict float :=
  fold_left
    (fun totals e =>
       let old := match get (fst e) totals with
                  | Some x => x
                  | None => 0%float
                  end in
       set (fst e) (old + snd e)%float totals)
    expenses [].

(** [sorted(items, key=lambda x: -x[1])] where no amount is NaN: the
    stable sort by the negated amount, as an insertion sort. *)
Fixpoint insert (x : string * float) (l : list (string * float))
  : list (string * float) :=
  match l with
  | [] => [x]
  | y :: r =>
      if PrimFloat.ltb (- snd y) (- snd x) then y :: insert x r
      else x :: y :: r
  end.

Fixpoint sorted (l : list (string * float)) : list (string * float) :=
  match l with
  | [] => []
  | x :: r => insert x (sorted r)
  end.

Record row : Type := {
  category : string;
  amount : float;
  percent : float
}.

Record report : Type := {
  total : float;
  count : nat;
  breakdown : list row
}.

(** [round(amt / total * 100, 1) if total else 0] *)
Definition percent_of (amt total_ : float) : Result float :=
  if truthy total_ then
    q <-? truediv amt total_ ;;
    Ok (round1 (q * 100))
  else Ok 0%float.

Fixpoint rows_of (items : list (string * float)) (total_ : float)
  : Result (list row) :=
  match items with
  | [] => Ok []
  | (cat, amt) :: rest =>
      p <-? percent_of amt total_ ;;
      rs <-? rows_of rest total_ ;;
      Ok (Build_row cat amt p :: rs)
  end.

Definition summary (sum_ : list float -> float)
    (sorted_ : list (string * float) -> list (string * float))
    (expenses : list (string * float)) : Result report :=
  let total_ := sum_ (map snd expenses) in
  let by_cat := _by_category expenses in
  breakdown_ <-? rows_of (sorted_ by_cat) total_ ;;
  Ok (Build_report total_ (List.length expenses) breakdown_).

End Doubles.


Module SampleDoubles.



(** The amounts of the worked scenario. *)
Definition scenario : list (string * float) :=
  [("Food", 100%float); ("Transport", 50%float); ("Food", 200%float)].


End SampleDoubles.


(** * Properties *)

(** Pairwise distinct closed strings. *)
Ltac distinct_ids :=
  repeat (constructor; [simpl; intuition discriminate|]); constructor.


(** ** What each method computes *)

Section Ledger.

Context `{FT : FloatText}.


Lemma add_run (e : Expense.t) (b : Budget.t) :
  Budget.add e b =
  (Ok e, Budget.mk (Budget.expenses b ++ [e])
                   (Some (rows_of_expenses (Budget.expenses b ++ [e])))).
Proof. reflexivity. Qed.

Lemma read_all_run (category month : option string) (b : Budget.t) :
  Budget.read_all category month b =
  (Ok (by_month_filter month (by_category_filter category (Budget.expenses b))),
   b).
Proof. reflexivity. Qed.

Lemma total_run (category month : option string) (b : Budget.t) :
  Budget.total category month b =
  (Ok (Budget.sum
         (map Expense.amount
            (by_month_filter month
               (by_category_filter category (Budget.expenses b))))), b).
Proof. reflexivity. Qed.

Lemma filter_length_le {A : Type} (p : A -> bool) (l : list A) :
  List.length (filter p l) <= List.length l.
Proof.
  induction l as [|x l IH]; simpl; [lia|].
  destruct (p x); simpl; lia.
Qed.

Lemma filter_same_length {A : Type} (p : A -> bool) (l : list A) :
  List.length (filter p l) = List.length l -> filter p l = l.
Proof.
  induction l as [|x l IH]; simpl; intros Hlen; [reflexivity|].
  destruct (p x); simpl in Hlen.
  - f_equal. apply IH. lia.
  - pose proof (filter_length_le p l). lia.
Qed.

(** [delete] keeps the records with another id; it saves, and answers
    [True], exactly when the list got shorter. *)
Lemma delete_run (expense_id : string) (b : Budget.t) :
  let kept := filter (fun e => negb (id_is expense_id e)) (Budget.expenses b) in
  Budget.delete expense_id b =
  if Nat.ltb (List.length kept) (List.length (Budget.expenses b))
  then (Ok true, Budget.mk kept (Some (rows_of_expenses kept)))
  else (Ok false, Budget.mk kept (Budget.disk b)).
Proof.
  cbv zeta. unfold Budget.delete, Budget.bind, Budget.get_expenses,
    Budget.set_expenses. simpl.
  fold (id_is expense_id).
  destruct (Nat.ltb _ _); reflexivity.
Qed.

Lemma kept_plus_removed (expense_id : string) (l : list Expense.t) :
  List.length (filter (fun e => negb (id_is expense_id e)) l)
  + count_occ string_dec (ids l) expense_id = List.length l.
Proof.
  induction l as [|x l IH]; simpl; [reflexivity|].
  unfold id_is at 1. destruct (String.eqb_spec (Expense.id x) expense_id) as [E|E];
    simpl; destruct (string_dec (Expense.id x) expense_id); try contradiction;
    lia.
Qed.

Lemma id_is_false_iff (expense_id : string) (l : list Expense.t) :
  (forall e, In e l -> id_is expense_id e = false) <-> ~ In expense_id (ids l).
Proof.
  unfold ids, id_is. split.
  - intros H Hin. apply in_map_iff in Hin as [e [He Hin]].
    specialize (H e Hin). rewrite He, String.eqb_refl in H. discriminate.
  - intros H e Hin. destruct (String.eqb_spec (Expense.id e) expense_id) as [E|E];
      [|reflexivity].
    exfalso. apply H. rewrite <- E. now apply in_map.
Qed.

(** The first record with a given id splits the list. *)
Lemma first_with_id (expense_id : string) (l : list Expense.t) :
  In expense_id (ids l) ->
  exists pre exp post,
    l = pre ++ exp :: post /\ Expense.id exp = expense_id /\
    ~ In expense_id (ids pre).
Proof.
  induction l as [|x l IH]; simpl; [contradiction|]. intros Hin.
  destruct (string_dec (Expense.id x) expense_id) as [E|E].
  - exists [], x, l. repeat split; auto.
  - destruct Hin as [Hx|Hin]; [contradiction|].
    destruct (IH Hin) as (pre & exp & post & Hl & Hid & Hpre).
    exists (x :: pre), exp, post. subst l. repeat split; auto.
    simpl. intros [H|H]; auto.
Qed.

(** The loop of [update] when no record left has the id. *)
Lemma update_loop_absent (expense_id : string) (kw : Budget.kwargs)
    (rest seen : list Expense.t) (b : Budget.t) :
  ~ In expense_id (ids rest) ->
  Budget.update_loop expense_id kw seen rest b = (Ok None, b).
Proof.
  revert seen. induction rest as [|x rest IH]; intros seen Hno; simpl;
    [reflexivity|].
  destruct (String.eqb_spec (Expense.id x) expense_id) as [E|E].
  - exfalso. apply Hno. simpl. now left.
  - apply IH. intros H. apply Hno. simpl. now right.
Qed.

(** The loop of [update] at the first record with the id. *)
Lemma update_loop_found (expense_id : string) (kw : Budget.kwargs)
    (pre : list Expense.t) (exp : Expense.t) (post seen : list Expense.t)
    (b : Budget.t) :
  ~ In expense_id (ids pre) -> Expense.id exp = expense_id ->
  Budget.update_loop expense_id kw seen (pre ++ exp :: post) b =
  match Budget.assign exp kw with
  | Ok exp' =>
      let l := seen ++ pre ++ exp' :: post in
      (Ok (Some exp'), Budget.mk l (Some (rows_of_expenses l)))
  | Raise x => (Raise x, b)
  end.
Proof.
  revert seen. induction pre as [|x pre IH]; intros seen Hno Hid; simpl.
  - rewrite Hid, String.eqb_refl.
    unfold Budget.bind, Budget.lift. destruct (Budget.assign exp kw); reflexivity.
  - destruct (String.eqb_spec (Expense.id x) expense_id) as [E|E].
    + exfalso. apply Hno. simpl. now left.
    + rewrite IH; auto.
      * destruct (Budget.assign exp kw); [|reflexivity].
        cbv zeta. rewrite <- app_assoc. reflexivity.
      * intros H. apply Hno. simpl. now right.
Qed.

(** What [assign] leaves alone. *)
Lemma assign_frame (exp exp' : Expense.t) (kw : Budget.kwargs) :
  Budget.assign exp kw = Ok exp' ->
  Expense.id exp' = Expense.id exp /\
  (Budget.kw_amount kw = None -> Expense.amount exp' = Expense.amount exp) /\
  (Budget.kw_category kw = None ->
   Expense.category exp' = Expense.category exp) /\
  (Budget.kw_description kw = None ->
   Expense.description exp' = Expense.description exp) /\
  (Budget.kw_date kw = None -> Expense.date exp' = Expense.date exp).
Proof.
  unfold Budget.assign. intros H.
  destruct (Budget.kw_amount kw) as [v|] eqn:Ea; simpl in H.
  - destruct (float_ v) as [a|x]; simpl in H; [|discriminate].
    injection H as <-. simpl. repeat split; try discriminate;
      intros ->; reflexivity.
  - injection H as <-. simpl. repeat split; intros ->; reflexivity.
Qed.

(** ** Reading *)

(** C9: [read_all] and [total] hand back the ledger they were given, the
    list in memory and the file alike, whatever the filters. *)
Theorem reads_leave_ledger_unchanged
    (category month : option string) (b : Budget.t) :
  snd (Budget.read_all category month b) = b /\
  snd (Budget.total category month b) = b.
Proof. rewrite read_all_run, total_run. split; reflexivity. Qed.

(** C10: an empty string given as the category filter, or as the month
    filter, counts as no filter: the call answers as if that argument
    were absent, and with nothing else given it returns all records. *)
Theorem read_all_empty_string_is_no_filter
    (category month : option string) (b : Budget.t) :
  Budget.read_all (Some EmptyString) month b = Budget.read_all None month b /\
  Budget.read_all category (Some EmptyString) b
    = Budget.read_all category None b /\
  fst (Budget.read_all (Some EmptyString) None b) = Ok (Budget.expenses b) /\
  fst (Budget.read_all None (Some EmptyString) b) = Ok (Budget.expenses b).
Proof. repeat split; reflexivity. Qed.

Lemma filter_filter_andb {A : Type} (p q : A -> bool) (l : list A) :
  filter q (filter p l) = filter (fun x => p x && q x) l.
Proof.
  induction l as [|x l IH]; simpl; [reflexivity|].
  destruct (p x); simpl; [destruct (q x)|]; now rewrite IH.
Qed.

Lemma filter_all {A : Type} (l : list A) : filter (fun _ => true) l = l.
Proof. induction l as [|x l IH]; simpl; [reflexivity | now rewrite IH]. Qed.

Lemma startswith_empty (s : string) : startswith s EmptyString = true.
Proof. destruct s; reflexivity. Qed.

(** C2, as the code has it: [read_all] returns, in the order of the
    ledger, exactly the records whose category equals the category filter
    up to case, when that filter is given and not empty, and whose date
    starts with the month filter, when that filter is given; an empty
    category filter selects as an absent one does.  With no filter it
    returns all records. *)
Theorem read_all_returns_the_selected_records
    (category month : option string) (b : Budget.t) :
  Budget.read_all category month b =
    (Ok (filter (selected category month) (Budget.expenses b)), b) /\
  Budget.read_all None None b = (Ok (Budget.expenses b), b).
Proof.
  split; [|reflexivity].
  rewrite read_all_run. f_equal. f_equal.
  unfold selected, by_month_filter, by_category_filter.
  destruct category as [[|a c]|], month as [[|a' m]|];
    rewrite ?filter_filter_andb;
    first [ apply filter_ext
          | rewrite <- (filter_all (Budget.expenses b)) at 1; apply filter_ext ];
    intros e; rewrite ?startswith_empty, ?andb_true_r; reflexivity.
Qed.

(** Two category filters that differ only in case select the same
    records: [read_all(category="food")] is [read_all(category="Food")]. *)
Lemma read_all_ignores_case (c c' : string) (month : option string)
    (b : Budget.t) :
  lower c = lower c' ->
  Budget.read_all (Some c) month b = Budget.read_all (Some c') month b.
Proof.
  intros H. rewrite !read_all_run. unfold by_category_filter.
  destruct c as [|a c], c' as [|a' c']; try discriminate; [reflexivity|].
  now rewrite H.
Qed.

(** ** Adding *)

(** C8: after [add] of an expense the ledger does not hold yet, [read_all]
    without filters lists the old records followed by the new one, which
    so occurs exactly once; [add] returns that expense. *)
Theorem add_then_read_all (b : Budget.t) (e : Expense.t)
    (Hnew : ~ In e (Budget.expenses b)) :
  exists b1 l,
    Budget.add e b = (Ok e, b1) /\
    Budget.read_all None None b1 = (Ok l, b1) /\
    l = Budget.expenses b ++ [e] /\
    count_occ expense_eq_dec l e = 1.
Proof.
  rewrite add_run. eexists. eexists. split; [reflexivity|].
  rewrite read_all_run. simpl. split; [reflexivity|]. split; [reflexivity|].
  rewrite count_occ_app. simpl.
  destruct (expense_eq_dec e e) as [_|Hne]; [|contradiction].
  apply (count_occ_not_In expense_eq_dec) in Hnew. rewrite Hnew. reflexivity.
Qed.

(** ** Updating *)

(** What [assign] makes of the fields that are passed. *)
Lemma assign_given (exp exp' : Expense.t) (kw : Budget.kwargs) :
  Budget.assign exp kw = Ok exp' ->
  (forall v, Budget.kw_amount kw = Some v ->
             float_ v = Ok (Expense.amount exp')) /\
  (forall c, Budget.kw_category kw = Some c ->
             Expense.category exp'
             = if in_ c Expense.CATEGORIES then c else Expense.category exp) /\
  (forall d, Budget.kw_description kw = Some d ->
             Expense.description exp' = strip d) /\
  (forall d, Budget.kw_date kw = Some d -> Expense.date exp' = d).
Proof.
  unfold Budget.assign.
  destruct (Budget.kw_category kw) as [c|], (Budget.kw_description kw) as [d|],
    (Budget.kw_date kw) as [dt|];
    (destruct (Budget.kw_amount kw) as [v|];
     [destruct (float_ v) as [x|] eqn:Ev; cbn [bindR]; [|discriminate]
     |cbn [bindR]]);
    intros H; injection H as <-;
    repeat split; intros y Hy; try discriminate Hy;
    injection Hy as <-; try reflexivity; exact Ev.
Qed.

(** [assign] raises only where [float] refuses the amount passed. *)
Lemma assign_raises (exp : Expense.t) (kw : Budget.kwargs) (x : exn) :
  Budget.assign exp kw = Raise x ->
  exists v, Budget.kw_amount kw = Some v /\ float_ v = Raise x.
Proof.
  unfold Budget.assign. destruct (Budget.kw_amount kw) as [v|];
    [|cbn [bindR]; discriminate].
  destruct (float_ v) as [a|y] eqn:Ev; cbn [bindR]; [discriminate|].
  intros H. injection H as <-. now exists v.
Qed.

(** C3: [update] with an id no record has returns [None] and leaves the
    ledger, list and file, as it was.  With an id some record has, the
    first such record is the only one touched, and the record in its
    place is the one returned: it keeps its id; a field that was passed
    takes the value passed ([float] of the amount, the description
    trimmed, the date as given, the category when it is of the fixed
    set); a field that was not passed keeps its value, and so does the
    category when the one passed is not of the set; the records before
    and after it stay as they were, and the file is rewritten with the
    new list.  The call raises only where [float] refuses the amount
    passed, and then nothing was changed. *)
Theorem update_changes_only_given_fields
    (expense_id : string) (kw : Budget.kwargs) (b : Budget.t) :
  (~ In expense_id (ids (Budget.expenses b)) ->
   Budget.update expense_id kw b = (Ok None, b)) /\
  (In expense_id (ids (Budget.expenses b)) ->
   exists pre exp post,
     Budget.expenses b = pre ++ exp :: post /\
     Expense.id exp = expense_id /\
     ~ In expense_id (ids pre) /\
     match Budget.update expense_id kw b with
     | (Ok (Some exp'), b') =>
         Budget.expenses b' = pre ++ exp' :: post /\
         Budget.disk b' = Some (rows_of_expenses (pre ++ exp' :: post)) /\
         Expense.id exp' = Expense.id exp /\
         (forall v, Budget.kw_amount kw = Some v ->
                    float_ v = Ok (Expense.amount exp')) /\
         (forall c, Budget.kw_category kw = Some c ->
                    Expense.category exp'
                    = if in_ c Expense.CATEGORIES then c
                      else Expense.category exp) /\
         (forall d, Budget.kw_description kw = Some d ->
                    Expense.description exp' = strip d) /\
         (forall d, Budget.kw_date kw = Some d -> Expense.date exp' = d) /\
         (Budget.kw_amount kw = None ->
          Expense.amount exp' = Expense.amount exp) /\
         (Budget.kw_category kw = None ->
          Expense.category exp' = Expense.category exp) /\
         (Budget.kw_description kw = None ->
          Expense.description exp' = Expense.description exp) /\
         (Budget.kw_date kw = None -> Expense.date exp' = Expense.date exp)
     | (Ok None, _) => False
     | (Raise x, b') =>
         b' = b /\
         exists v, Budget.kw_amount kw = Some v /\ float_ v = Raise x
     end).
Proof.
  unfold Budget.update, Budget.bind, Budget.get_expenses. split.
  - intros Hno. now apply update_loop_absent.
  - intros Hin.
    destruct (first_with_id _ _ Hin) as (pre & exp & post & Hl & Hid & Hpre).
    exists pre, exp, post. repeat split; auto.
    rewrite Hl, update_loop_found by assumption.
    destruct (Budget.assign exp kw) as [exp'|x] eqn:Ha.
    + cbv zeta. cbn [Budget.expenses Budget.disk app].
      split; [reflexivity|]. split; [reflexivity|].
      destruct (assign_frame _ _ Ha) as (Hi & Hfa & Hfc & Hfd & Hft).
      destruct (assign_given _ _ Ha) as (Hga & Hgc & Hgd & Hgt).
      repeat split; assumption.
    + split; [reflexivity|]. now apply assign_raises in Ha.
Qed.

(** C7, as the code has it: a category outside the fixed set never makes
    a call fail.  The constructor stores ["Other"] in its place; [update]
    ignores it, so the record keeps the category it had and the call
    does what it does without the category argument. *)
Theorem invalid_category_is_never_an_error (c : string)
    (Hbad : in_ c Expense.CATEGORIES = false) :
  (forall env amount description date_str expense_id,
     Expense.__init__ env amount (Some c) description date_str expense_id =
     Expense.__init__ env amount (Some "Other") description date_str
       expense_id) /\
  (forall env amount description date_str expense_id e,
     Expense.__init__ env amount (Some c) description date_str expense_id
       = Ok e ->
     Expense.category e = "Other") /\
  (forall expense_id kw b,
     Budget.kw_category kw = Some c ->
     Budget.update expense_id kw b =
     Budget.update expense_id (without_category kw) b) /\
  (forall exp kw exp',
     Budget.kw_category kw = Some c ->
     Budget.assign exp kw = Ok exp' ->
     Expense.category exp' = Expense.category exp).
Proof.
  assert (Hassign : forall exp kw, Budget.kw_category kw = Some c ->
            Budget.assign exp kw = Budget.assign exp (without_category kw)).
  { intros exp kw Hc. unfold Budget.assign. rewrite Hc, Hbad.
    reflexivity. }
  assert (Hloop : forall expense_id kw rest seen b,
            Budget.kw_category kw = Some c ->
            Budget.update_loop expense_id kw seen rest b =
            Budget.update_loop expense_id (without_category kw) seen rest b).
  { intros expense_id kw rest. induction rest as [|x rest IH];
      intros seen b Hc; simpl; [reflexivity|].
    destruct (String.eqb (Expense.id x) expense_id); [|now apply IH].
    rewrite (Hassign x kw Hc). reflexivity. }
  repeat split.
  - intros. unfold Expense.__init__, Expense.normalize_category.
    rewrite Hbad. reflexivity.
  - intros env amount description date_str expense_id e.
    unfold Expense.__init__, Expense.normalize_category. rewrite Hbad.
    destruct (float_ amount); simpl; [|discriminate].
    destruct description; simpl; [|discriminate].
    intros H. injection H as <-. reflexivity.
  - intros expense_id kw b Hc. unfold Budget.update, Budget.bind,
      Budget.get_expenses. now apply Hloop.
  - intros exp kw exp' Hc Ha. rewrite (Hassign exp kw Hc) in Ha.
    apply assign_frame in Ha. now apply Ha.
Qed.

(** ** Deleting *)

(** C4, as the code has it: [delete] keeps the records with another id
    and drops every record with the given one, so the size falls by the
    number of records that carry the id; it answers [True] exactly when
    some record carried it, and otherwise leaves the ledger as it was.
    When the ids of the ledger are pairwise distinct the size falls by
    at most one, and by exactly one when the answer is [True]. *)
Theorem delete_removes_the_records_with_the_id
    (expense_id : string) (b : Budget.t) :
  exists r b',
    Budget.delete expense_id b = (Ok r, b') /\
    Budget.expenses b' =
      filter (fun e => negb (id_is expense_id e)) (Budget.expenses b) /\
    List.length (Budget.expenses b')
      + count_occ string_dec (ids (Budget.expenses b)) expense_id
      = List.length (Budget.expenses b) /\
    (r = true <-> In expense_id (ids (Budget.expenses b))) /\
    (r = false -> b' = b) /\
    (NoDup (ids (Budget.expenses b)) ->
     List.length (Budget.expenses b) <= S (List.length (Budget.expenses b')) /\
     (r = true ->
      List.length (Budget.expenses b) = S (List.length (Budget.expenses b')))).
Proof.
  pose proof (delete_run expense_id b) as Hrun. cbv zeta in Hrun.
  pose proof (kept_plus_removed expense_id (Budget.expenses b)) as Hsum.
  pose proof (count_occ_In string_dec (ids (Budget.expenses b)) expense_id)
    as Hocc.
  set (kept := filter (fun e => negb (id_is expense_id e)) (Budget.expenses b))
    in *.
  destruct (Nat.ltb_spec (List.length kept) (List.length (Budget.expenses b)))
    as [Hlt|Hge].
  - exists true. eexists. split; [exact Hrun|]. simpl.
    split; [reflexivity|]. split; [exact Hsum|]. split.
    + split; [intros _; apply Hocc; lia | reflexivity].
    + split; [discriminate|]. intros Hnd.
      rewrite (NoDup_count_occ string_dec) in Hnd.
      specialize (Hnd expense_id). lia.
  - exists false. eexists. split; [exact Hrun|]. simpl.
    split; [reflexivity|]. split; [exact Hsum|]. split.
    + split; [discriminate|]. intros Hin. apply Hocc in Hin. lia.
    + split.
      * intros _. assert (Hk : kept = Budget.expenses b).
        { apply filter_same_length.
          pose proof (filter_length_le (fun e => negb (id_is expense_id e))
                        (Budget.expenses b)) as Hle.
          fold kept in Hle. fold kept. lia. }
        rewrite Hk. destruct b; reflexivity.
      * intros _. split; [lia | discriminate].
Qed.

(** ** The invariant of the ledger *)

Lemma hex_digits_nonempty (k : nat) (n : N) (acc : string) :
  acc <> EmptyString \/ k <> 0 -> hex_digits k n acc <> EmptyString.
Proof.
  revert n acc. induction k as [|k IH]; intros n acc H; simpl.
  - destruct H as [H|H]; [exact H | contradiction].
  - apply IH. left. discriminate.
Qed.

Lemma uuid_str8_nonempty (u : N) : uuid_str8 u <> EmptyString.
Proof. apply hex_digits_nonempty. right. discriminate. Qed.

Lemma or_nonempty (a : option string) (d : string) :
  d <> EmptyString -> or_ a d <> EmptyString.
Proof. destruct a as [[|c r]|]; simpl; auto. discriminate. Qed.

Lemma in_true_iff (x : string) (xs : list string) :
  in_ x xs = true <-> In x xs.
Proof.
  unfold in_. rewrite existsb_exists. split.
  - intros [y [Hy E]]. apply String.eqb_eq in E. now subst.
  - intros H. exists x. split; [exact H | apply String.eqb_refl].
Qed.

Lemma normalize_category_in (category : option string) :
  In (Expense.normalize_category category) Expense.CATEGORIES.
Proof.
  unfold Expense.normalize_category. destruct category as [c|].
  - destruct (in_ c Expense.CATEGORIES) eqn:E.
    + now apply in_true_iff.
    + apply in_true_iff. reflexivity.
  - apply in_true_iff. reflexivity.
Qed.

Lemma init_well_formed env amount category description date_str expense_id e :
  Expense.__init__ env amount category description date_str expense_id = Ok e ->
  well_formed e.
Proof.
  unfold Expense.__init__. destruct (float_ amount); simpl; [|discriminate].
  destruct description; simpl; [|discriminate].
  intros H. injection H as <-. split; simpl.
  - apply or_nonempty, uuid_str8_nonempty.
  - apply normalize_category_in.
Qed.

Lemma from_dict_well_formed env d e :
  Expense.from_dict env d = Ok e -> well_formed e.
Proof.
  unfold Expense.from_dict.
  destruct (item "amount" d); simpl; [|discriminate].
  destruct (item "category" d); simpl; [|discriminate].
  destruct (item "description" d); simpl; [|discriminate].
  destruct (item "date" d); simpl; [|discriminate].
  destruct (item "id" d); simpl; [|discriminate].
  apply init_well_formed.
Qed.

Lemma load_rows_well_formed envs rows : forall i b r b',
  Forall well_formed (Budget.expenses b) ->
  Budget.load_rows envs i rows b = (r, b') ->
  Forall well_formed (Budget.expenses b').
Proof.
  induction rows as [|row rows IH]; intros i b r b' Hb; simpl.
  - intros H. injection H as _ <-. exact Hb.
  - unfold Budget.bind at 1, Budget.lift.
    destruct (Expense.from_dict (envs i) row) as [e|x] eqn:Hrow.
    + apply IH. simpl. apply Forall_app. split; [exact Hb|].
      constructor; [|constructor]. now apply from_dict_well_formed in Hrow.
    + intros H. injection H as _ <-. exact Hb.
Qed.

Lemma assign_well_formed exp kw exp' :
  well_formed exp -> Budget.assign exp kw = Ok exp' -> well_formed exp'.
Proof.
  intros [Hid Hcat]. unfold Budget.assign.
  destruct (match Budget.kw_amount kw with
            | Some v => float_ v
            | None => Ok (Expense.amount exp)
            end); cbn [bindR]; [|discriminate].
  destruct (Budget.kw_category kw) as [c|];
    [destruct (in_ c Expense.CATEGORIES) eqn:E|];
    intros H; injection H as <-; split; try exact Hid; try exact Hcat.
  now apply in_true_iff.
Qed.

(** [update] leaves the list as it was or puts, in the place of the
    first record with the id, what [assign] made of it. *)
Lemma update_cases (expense_id : string) (kw : Budget.kwargs) (b : Budget.t) :
  Budget.expenses (snd (Budget.update expense_id kw b)) = Budget.expenses b \/
  exists pre exp exp' post,
    Budget.expenses b = pre ++ exp :: post /\
    Budget.assign exp kw = Ok exp' /\
    Budget.expenses (snd (Budget.update expense_id kw b))
      = pre ++ exp' :: post.
Proof.
  unfold Budget.update, Budget.bind, Budget.get_expenses.
  destruct (in_dec string_dec expense_id (ids (Budget.expenses b)))
    as [Hin|Hno].
  - destruct (first_with_id _ _ Hin) as (pre & exp & post & Hl & Hid & Hpre).
    rewrite Hl, update_loop_found by assumption.
    destruct (Budget.assign exp kw) as [exp'|x] eqn:Ha.
    + right. exists pre, exp, exp', post. rewrite <- Hl. auto.
    + left. simpl. now rewrite Hl.
  - left. now rewrite update_loop_absent.
Qed.

Lemma update_well_formed expense_id kw b :
  Forall well_formed (Budget.expenses b) ->
  Forall well_formed (Budget.expenses (snd (Budget.update expense_id kw b))).
Proof.
  intros Hb.
  destruct (update_cases expense_id kw b)
    as [->|(pre & exp & exp' & post & Hl & Ha & ->)]; [exact Hb|].
  rewrite Hl in Hb. apply Forall_app in Hb as [Hpre Hrest].
  inversion Hrest as [|? ? Hexp Hpost]; subst.
  apply Forall_app. split; [exact Hpre|]. constructor; [|exact Hpost].
  eapply assign_well_formed; eauto.
Qed.

Lemma update_keeps_ids expense_id kw b :
  ids (Budget.expenses (snd (Budget.update expense_id kw b)))
  = ids (Budget.expenses b).
Proof.
  destruct (update_cases expense_id kw b)
    as [->|(pre & exp & exp' & post & Hl & Ha & ->)]; [reflexivity|].
  rewrite Hl. unfold ids. rewrite !map_app. simpl.
  apply assign_frame in Ha as [-> _]. reflexivity.
Qed.

Lemma delete_expenses expense_id b :
  Budget.expenses (snd (Budget.delete expense_id b))
  = filter (fun e => negb (id_is expense_id e)) (Budget.expenses b).
Proof.
  pose proof (delete_run expense_id b) as H. cbv zeta in H. rewrite H.
  destruct (Nat.ltb _ _); reflexivity.
Qed.

Lemma filter_keeps_distinct_ids (p : Expense.t -> bool) (l : list Expense.t) :
  NoDup (ids l) -> NoDup (ids (filter p l)).
Proof.
  induction l as [|x l IH]; simpl; intros H; [constructor|].
  inversion H as [|? ? Hx Hl]; subst.
  destruct (p x); simpl; [|now apply IH].
  constructor; [|now apply IH].
  intros Hin. apply Hx. unfold ids in *. apply in_map_iff in Hin
    as [y [Hy Hin]]. apply filter_In in Hin as [Hin _].
  rewrite <- Hy. now apply in_map.
Qed.

Lemma reachable_well_formed (b : Budget.t) :
  reachable b -> Forall well_formed (Budget.expenses b).
Proof.
  induction 1 as [envs file b Hinit | b env a c d dt i e Hb IH He
                  | b i kw Hb IH | b i Hb IH].
  - unfold Budget.__init__, Budget._load, Budget.bind, Budget.read_file in Hinit.
    simpl in Hinit. destruct file as [rows|].
    + eapply load_rows_well_formed; [|exact Hinit]. constructor.
    + injection Hinit as <-. constructor.
  - rewrite add_run. simpl. apply Forall_app. split; [exact IH|].
    constructor; [|constructor]. eapply init_well_formed; eauto.
  - now apply update_well_formed.
  - rewrite delete_expenses. apply Forall_forall. intros e He.
    apply filter_In in He as [He _]. rewrite Forall_forall in IH. now apply IH.
Qed.

(** C6, as the code has it: in every state reached by loading, adding,
    updating and deleting, every stored expense has a non-empty id and a
    category of the fixed set.  That the ids are pairwise distinct is
    kept by [update] and by [delete], and by [add] when the id of the
    new expense is not yet in the ledger; [add] itself does not look. *)
Theorem reachable_ledger_invariant :
  (forall b, reachable b -> Forall well_formed (Budget.expenses b)) /\
  (forall b expense_id kw,
     NoDup (ids (Budget.expenses b)) ->
     NoDup (ids (Budget.expenses (snd (Budget.update expense_id kw b))))) /\
  (forall b expense_id,
     NoDup (ids (Budget.expenses b)) ->
     NoDup (ids (Budget.expenses (snd (Budget.delete expense_id b))))) /\
  (forall b e,
     NoDup (ids (Budget.expenses b)) ->
     ~ In (Expense.id e) (ids (Budget.expenses b)) ->
     NoDup (ids (Budget.expenses (snd (Budget.add e b))))).
Proof.
  split; [exact reachable_well_formed|]. split; [|split].
  - intros b i kw H. now rewrite update_keeps_ids.
  - intros b i H. rewrite delete_expenses. now apply filter_keeps_distinct_ids.
  - intros b e H Hnew. rewrite add_run. simpl. unfold ids. rewrite map_app.
    simpl. apply (Permutation_NoDup (Permutation_cons_append _ _)).
    now constructor.
Qed.

(** ** Saving and loading *)


Lemma or_nonempty_left (s d : string) : s <> EmptyString -> or_ (Some s) d = s.
Proof. destruct s; [contradiction | reflexivity]. Qed.




End Ledger.

(** ** The summary *)

Section Summary.

Import Analytics.
Local Open Scope Q_scope.

Lemma fold_left_Qplus_acc (xs : list Q) : forall a,
  fold_left Qplus xs a == a + fold_left Qplus xs 0.
Proof.
  induction xs as [|x xs IH]; intros a; simpl; [lra|].
  rewrite (IH (a + x)), (IH (0 + x)). lra.
Qed.

Lemma sum_cons (x : Q) (xs : list Q) : Budget.sum (x :: xs) == x + Budget.sum xs.
Proof. unfold Budget.sum. simpl. rewrite fold_left_Qplus_acc. lra. Qed.

Lemma sum_nil : Budget.sum [] == 0.
Proof. reflexivity. Qed.


Lemma set_adds (k : string) (x : Q) (d : dict Q) :
  Budget.sum (map snd (set k (match get k d with Some v => v | None => 0 end + x) d))
  == Budget.sum (map snd d) + x.
Proof.
  induction d as [|[k' v'] d IH]; simpl.
  - rewrite sum_cons, sum_nil. lra.
  - destruct (String.eqb k k'); simpl.
    + rewrite !sum_cons. lra.
    + rewrite !sum_cons. rewrite IH. lra.
Qed.


Lemma percent_of_run (amt total_ : Q) :
  percent_of amt total_ =
  Ok (if nonzero total_ then round1 (amt / total_ * 100) else 0).
Proof.
  unfold percent_of, nonzero, truediv.
  destruct (Qeq_bool total_ 0); reflexivity.
Qed.

Lemma rows_of_run (items : list (string * Q)) (total_ : Q) :
  rows_of items total_ =
  Ok (map (fun '(cat, amt) =>
             Build_row cat amt
               (if nonzero total_ then round1 (amt / total_ * 100) else 0))
          items).
Proof.
  induction items as [|[cat amt] items IH]; simpl; [reflexivity|].
  rewrite percent_of_run, IH. reflexivity.
Qed.


End Summary.

(** ** Runs on the sample data *)

Section Runs.

Import DecimalText.
Import Sample.

Example uuid_text : uuid_str8 (uuid4 env) = "3f2a9c4e".
Proof. reflexivity. Qed.

Example lunch_constructed :
  Expense.__init__ env (AFloat 100) (Some "Food") (Some " lunch ")
    (Some "2024-05-01") (Some "a1") = Ok lunch.
Proof. reflexivity. Qed.

Example ledger_state :
  ledger = Budget.mk [lunch; bus; groceries]
    (Some [["id"; "amount"; "category"; "description"; "date"];
           ["a1"; "100.0"; "Food"; "lunch"; "2024-05-01"];
           ["b2"; "50.0"; "Transport"; "bus"; "2024-05-02"];
           ["c3"; "200.0"; "Food"; "groceries"; "2024-06-01"]]).
Proof. vm_compute. reflexivity. Qed.

Example scenario_month :
  fst (Budget.read_all None (Some "2024-05") ledger) = Ok [lunch; bus].
Proof. vm_compute. reflexivity. Qed.

Example scenario_by_category :
  Analytics._by_category (Budget.expenses ledger)
  = [("Food", (0 + 100 + 200)%Q); ("Transport", (0 + 50)%Q)].
Proof. reflexivity. Qed.

Example scenario_category :
  Budget.read_all (Some "food") None ledger
  = Budget.read_all (Some "Food") None ledger /\
  fst (Budget.read_all (Some "FOOD") None ledger) = Ok [lunch; groceries].
Proof. split; [now apply read_all_ignores_case | vm_compute; reflexivity]. Qed.

Example scenario_summary :
  fst (Analytics.summary None ledger)
  = Ok (Analytics.Build_report 350 3
          [Analytics.Build_row "Food" 300 (857 # 10);
           Analytics.Build_row "Transport" 50 (143 # 10)]).
Proof. vm_compute. reflexivity. Qed.

Example empty_state : empty = Budget.mk [] None.
Proof. reflexivity. Qed.

Example twice_state :
  twice = Budget.mk [lunch; snack]
    (Some [["id"; "amount"; "category"; "description"; "date"];
           ["a1"; "100.0"; "Food"; "lunch"; "2024-05-01"];
           ["a1"; "12.5"; "Food"; "snack"; "2024-05-03"]]).
Proof. vm_compute. reflexivity. Qed.


Lemma reachable_empty : reachable empty.
Proof. apply (reach_init (fun _ => env) None). reflexivity. Qed.

Lemma reachable_ledger : reachable ledger.
Proof.
  unfold ledger.
  apply reach_add with (env := env) (amount := AFloat 200) (category := Some "Food")
           (description := Some "groceries") (date_str := Some "2024-06-01")
           (expense_id := Some "c3"); [|reflexivity].
  apply reach_add with (env := env) (amount := AFloat 50)
           (category := Some "Transport") (description := Some "bus")
           (date_str := Some "2024-05-02") (expense_id := Some "b2");
    [|reflexivity].
  apply reach_add with (env := env) (amount := AFloat 100) (category := Some "Food")
           (description := Some "lunch") (date_str := Some "2024-05-01")
           (expense_id := Some "a1"); [|reflexivity].
  exact reachable_empty.
Qed.

Lemma reachable_twice : reachable twice.
Proof.
  unfold twice.
  apply reach_add with (env := env) (amount := AFloat (25 # 2))
           (category := Some "Food") (description := Some "snack")
           (date_str := Some "2024-05-03") (expense_id := Some "a1");
    [|reflexivity].
  apply reach_add with (env := env) (amount := AFloat 100) (category := Some "Food")
           (description := Some "lunch") (date_str := Some "2024-05-01")
           (expense_id := Some "a1"); [|reflexivity].
  exact reachable_empty.
Qed.


(** *** Where a statement fails as it is written *)


(** C2: with the empty string as the category filter [read_all] returns
    all three records, while no record has a category equal to the empty
    string up to case. *)
Lemma read_all_empty_category_returns_all :
  fst (Budget.read_all (Some EmptyString) None ledger)
    = Ok [lunch; bus; groceries] /\
  filter (selected_as_stated (Some EmptyString) None) (Budget.expenses ledger)
    = [] /\
  fst (Budget.read_all (Some EmptyString) None ledger)
    <> Ok (filter (selected_as_stated (Some EmptyString) None)
             (Budget.expenses ledger)).
Proof.
  assert (H1 : fst (Budget.read_all (Some EmptyString) None ledger)
               = Ok [lunch; bus; groceries]) by (vm_compute; reflexivity).
  assert (H2 : filter (selected_as_stated (Some EmptyString) None)
                 (Budget.expenses ledger) = []) by (vm_compute; reflexivity).
  split; [exact H1|]. split; [exact H2|]. rewrite H1, H2. discriminate.
Qed.

(** C4: in a ledger reached by two [add]s of expenses constructed with
    the same id, one [delete] of that id takes the size from 2 to 0. *)
Lemma delete_removes_both_records_with_the_id :
  reachable twice /\
  ids (Budget.expenses twice) = ["a1"; "a1"] /\
  List.length (Budget.expenses twice) = 2 /\
  fst (Budget.delete "a1" twice) = Ok true /\
  List.length (Budget.expenses (snd (Budget.delete "a1" twice))) = 0 /\
  ~ List.length (Budget.expenses twice)
    <= S (List.length (Budget.expenses (snd (Budget.delete "a1" twice)))).
Proof.
  split; [exact reachable_twice|]. rewrite twice_state.
  split; [reflexivity|]. split; [reflexivity|]. split; [reflexivity|].
  split; [reflexivity|]. vm_compute. intros H. lia.
Qed.

(** C6: two [add]s of expenses constructed with the same id reach a
    ledger whose ids are not pairwise distinct. *)
Lemma add_stores_a_second_record_with_the_same_id :
  reachable twice /\
  ~ NoDup (ids (Budget.expenses twice)) /\
  ~ stored_invariant (Budget.expenses twice).
Proof.
  split; [exact reachable_twice|]. rewrite twice_state.
  assert (H : ~ NoDup (ids [lunch; snack])).
  { intros H. inversion H as [|? ? Hin _]. apply Hin. left. reflexivity. }
  split; [exact H|]. intros [_ Hnd]. exact (H Hnd).
Qed.

(** C7: [update] with a category outside the fixed set leaves the
    category of the record at ["Food"]; it does not become ["Other"]. *)
Lemma update_keeps_the_category_on_an_invalid_one :
  in_ "Bogus" Expense.CATEGORIES = false /\
  exists e b',
    Budget.update "a1" bogus_category ledger = (Ok (Some e), b') /\
    Expense.category e = "Food" /\
    Expense.category e <> "Other".
Proof.
  split; [reflexivity|]. eexists. eexists.
  split; [vm_compute; reflexivity|]. split; [reflexivity | discriminate].
Qed.

(** *** The statements at the sample data *)




(** C3 at an id the ledger does not have and at the id of [bus]. *)
Lemma update_changes_only_given_fields_witness :
  (~ In "zz" (ids (Budget.expenses ledger)) /\
   Budget.update "zz" new_amount ledger = (Ok None, ledger)) /\
  (In "b2" (ids (Budget.expenses ledger)) /\
   exists pre exp post,
     Budget.expenses ledger = pre ++ exp :: post /\
     Expense.id exp = "b2" /\
     ~ In "b2" (ids pre) /\
     match Budget.update "b2" new_amount ledger with
     | (Ok (Some exp'), b') =>
         Budget.expenses b' = pre ++ exp' :: post /\
         Budget.disk b' = Some (rows_of_expenses (pre ++ exp' :: post)) /\
         Expense.id exp' = Expense.id exp /\
         (forall v, Budget.kw_amount new_amount = Some v ->
                    float_ v = Ok (Expense.amount exp')) /\
         (forall c, Budget.kw_category new_amount = Some c ->
                    Expense.category exp'
                    = if in_ c Expense.CATEGORIES then c
                      else Expense.category exp) /\
         (forall d, Budget.kw_description new_amount = Some d ->
                    Expense.description exp' = strip d) /\
         (forall d, Budget.kw_date new_amount = Some d ->
                    Expense.date exp' = d) /\
         (Budget.kw_amount new_amount = None ->
          Expense.amount exp' = Expense.amount exp) /\
         (Budget.kw_category new_amount = None ->
          Expense.category exp' = Expense.category exp) /\
         (Budget.kw_description new_amount = None ->
          Expense.description exp' = Expense.description exp) /\
         (Budget.kw_date new_amount = None ->
          Expense.date exp' = Expense.date exp)
     | (Ok None, _) => False
     | (Raise x, b') =>
         b' = ledger /\
         exists v, Budget.kw_amount new_amount = Some v /\ float_ v = Raise x
     end).
Proof.
  assert (Hno : ~ In "zz" (ids (Budget.expenses ledger))).
  { change (ids (Budget.expenses ledger)) with ["a1"; "b2"; "c3"].
    simpl. intuition discriminate. }
  assert (Hin : In "b2" (ids (Budget.expenses ledger))).
  { change (ids (Budget.expenses ledger)) with ["a1"; "b2"; "c3"].
    right. left. reflexivity. }
  split; (split; [assumption|]).
  - exact (proj1 (update_changes_only_given_fields "zz" new_amount ledger) Hno).
  - exact (proj2 (update_changes_only_given_fields "b2" new_amount ledger) Hin).
Defined.

(** What the update of the scenario makes of [bus]: the amount parsed,
    the description trimmed, category and date kept. *)
Example update_applies_the_fields :
  exists b',
    Budget.update "b2" new_amount ledger
    = (Ok (Some (Expense.mk "b2" (29 # 4) "Transport" "tram" "2024-05-02")),
       b') /\
    Budget.expenses b'
    = [lunch; Expense.mk "b2" (29 # 4) "Transport" "tram" "2024-05-02";
       groceries].
Proof. eexists. split; vm_compute; reflexivity. Qed.

(** C4 at a ledger with pairwise distinct ids. *)
Lemma delete_removes_the_records_with_the_id_witness :
  NoDup (ids (Budget.expenses ledger)) /\
  exists r b',
    Budget.delete "b2" ledger = (Ok r, b') /\
    List.length (Budget.expenses ledger)
      <= S (List.length (Budget.expenses b')) /\
    (r = true ->
     List.length (Budget.expenses ledger)
       = S (List.length (Budget.expenses b'))).
Proof.
  assert (Hnd : NoDup (ids (Budget.expenses ledger))).
  { change (ids (Budget.expenses ledger)) with ["a1"; "b2"; "c3"].
    distinct_ids. }
  split; [exact Hnd|].
  destruct (delete_removes_the_records_with_the_id "b2" ledger)
    as (r & b' & Hrun & _ & _ & _ & _ & Hone).
  exists r, b'. split; [exact Hrun | exact (Hone Hnd)].
Defined.

(** C6 at the scenario. *)
Lemma reachable_ledger_invariant_witness :
  (reachable ledger /\ Forall well_formed (Budget.expenses ledger)) /\
  (NoDup (ids (Budget.expenses ledger)) /\
   NoDup (ids (Budget.expenses (snd (Budget.update "b2" new_amount ledger))))) /\
  (NoDup (ids (Budget.expenses ledger)) /\
   NoDup (ids (Budget.expenses (snd (Budget.delete "b2" ledger))))) /\
  (NoDup (ids (Budget.expenses ledger)) /\
   ~ In (Expense.id refund) (ids (Budget.expenses ledger)) /\
   NoDup (ids (Budget.expenses (snd (Budget.add refund ledger))))).
Proof.
  assert (Hnd : NoDup (ids (Budget.expenses ledger))).
  { change (ids (Budget.expenses ledger)) with ["a1"; "b2"; "c3"].
    distinct_ids. }
  assert (Hnew : ~ In (Expense.id refund) (ids (Budget.expenses ledger))).
  { change (ids (Budget.expenses ledger)) with ["a1"; "b2"; "c3"].
    simpl. intuition discriminate. }
  destruct reachable_ledger_invariant as (Hwf & Hupd & Hdel & Hadd).
  split; [split; [exact reachable_ledger | exact (Hwf _ reachable_ledger)]|].
  split; [split; [exact Hnd | exact (Hupd _ _ _ Hnd)]|].
  split; [split; [exact Hnd | exact (Hdel _ _ Hnd)]|].
  split; [exact Hnd|]. split; [exact Hnew | exact (Hadd _ _ Hnd Hnew)].
Defined.

(** C7 at the category ["Bogus"]. *)
Lemma invalid_category_is_never_an_error_witness :
  in_ "Bogus" Expense.CATEGORIES = false /\
  Expense.__init__ env (AFloat 5) (Some "Bogus") (Some "x") None None
  = Expense.__init__ env (AFloat 5) (Some "Other") (Some "x") None None /\
  Budget.update "a1" bogus_category ledger
  = Budget.update "a1" (without_category bogus_category) ledger.
Proof.
  split; [reflexivity|].
  destruct (invalid_category_is_never_an_error "Bogus" eq_refl)
    as (Hinit & _ & Hupd & _).
  split; [apply Hinit | apply Hupd; reflexivity].
Defined.

(** C8 at the scenario: the third record added to the first two. *)
Lemma add_then_read_all_witness :
  ~ In groceries (Budget.expenses two) /\
  exists b1 l,
    Budget.add groceries two = (Ok groceries, b1) /\
    Budget.read_all None None b1 = (Ok l, b1) /\
    l = Budget.expenses two ++ [groceries] /\
    count_occ expense_eq_dec l groceries = 1.
Proof.
  assert (Hnew : ~ In groceries (Budget.expenses two)).
  { change (Budget.expenses two) with [lunch; bus].
    simpl. intuition discriminate. }
  split; [exact Hnew | exact (add_then_read_all two groceries Hnew)].
Defined.

End Runs.

(** * Further properties of the code *)

(** ** Text *)

Section Text.

Lemma rstrip_idempotent (s : string) : rstrip (rstrip s) = rstrip s.
Proof.
  induction s as [|c r IH]; simpl; [reflexivity|].
  destruct (rstrip r) as [|c' r'] eqn:E.
  - destruct (isspace c) eqn:Ec; simpl; [reflexivity|]. now rewrite Ec.
  - simpl in *. now rewrite IH.
Qed.

Lemma lstrip_head (s : string) :
  lstrip s = EmptyString \/
  exists c r, lstrip s = String c r /\ isspace c = false.
Proof.
  induction s as [|c r IH]; simpl; [now left|].
  destruct (isspace c) eqn:Ec; [exact IH|]. right. now exists c, r.
Qed.

Lemma rstrip_keeps_head (c : ascii) (r : string) :
  isspace c = false -> exists r', rstrip (String c r) = String c r'.
Proof.
  intros Ec. simpl. destruct (rstrip r) as [|c' r'].
  - rewrite Ec. now exists EmptyString.
  - now exists (String c' r').
Qed.

Lemma strip_idempotent (s : string) : strip (strip s) = strip s.
Proof.
  unfold strip. destruct (lstrip_head s) as [E|(c & r & E & Ec)]; rewrite E.
  - reflexivity.
  - destruct (@rstrip_keeps_head c r Ec) as [r' E']. rewrite E'.
    simpl lstrip. rewrite Ec, <- E'. apply rstrip_idempotent.
Qed.

End Text.

(** ** More on the ledger *)

Section MoreLedger.

Context `{FT : FloatText}.

Lemma from_dict_constructs env d e :
  Expense.from_dict env d = Ok e ->
  exists a c s dt i, Expense.__init__ env a c s dt i = Ok e.
Proof.
  unfold Expense.from_dict.
  destruct (item "amount" d) as [a|]; cbn [bindR]; [|discriminate].
  destruct (item "category" d) as [c|]; cbn [bindR]; [|discriminate].
  destruct (item "description" d) as [s|]; cbn [bindR]; [|discriminate].
  destruct (item "date" d) as [dt|]; cbn [bindR]; [|discriminate].
  destruct (item "id" d) as [i|]; cbn [bindR]; [|discriminate].
  intros H.
  exists (match a with Some x => AStr x | None => ANone end), c, s, dt, i.
  exact H.
Qed.

(** What the constructor establishes and [update] keeps holds of every
    record of every reachable ledger. *)
Lemma reachable_forall (P : Expense.t -> Prop) :
  (forall env a c d dt i e, Expense.__init__ env a c d dt i = Ok e -> P e) ->
  (forall exp kw exp', P exp -> Budget.assign exp kw = Ok exp' -> P exp') ->
  forall b, reachable b -> Forall P (Budget.expenses b).
Proof.
  intros Hinit Hassign.
  assert (Hload : forall envs rows i b r b',
            Forall P (Budget.expenses b) ->
            Budget.load_rows envs i rows b = (r, b') ->
            Forall P (Budget.expenses b')).
  { intros envs rows. induction rows as [|row rows IH]; intros i b r b' Hb;
      simpl.
    - intros H. injection H as _ <-. exact Hb.
    - unfold Budget.bind at 1, Budget.lift.
      destruct (Expense.from_dict (envs i) row) as [e|x] eqn:Hrow.
      + apply IH. simpl. apply Forall_app. split; [exact Hb|].
        constructor; [|constructor].
        apply from_dict_constructs in Hrow as (a & c & s & dt & i' & He).
        eapply Hinit; eauto.
      + intros H. injection H as _ <-. exact Hb. }
  induction 1 as [envs file b Hb | b env a c d dt i e Hb IH He
                  | b i kw Hb IH | b i Hb IH].
  - unfold Budget.__init__, Budget._load, Budget.bind, Budget.read_file in Hb.
    simpl in Hb. destruct file as [rows|].
    + eapply Hload; [|exact Hb]. constructor.
    + injection Hb as <-. constructor.
  - rewrite add_run. simpl. apply Forall_app. split; [exact IH|].
    constructor; [|constructor]. eapply Hinit; eauto.
  - destruct (update_cases i kw b)
      as [->|(pre & exp & exp' & post & Hl & Ha & ->)]; [exact IH|].
    rewrite Hl in IH. apply Forall_app in IH as [Hpre Hrest].
    inversion Hrest as [|? ? Hexp Hpost]; subst.
    apply Forall_app. split; [exact Hpre|]. constructor; [|exact Hpost].
    eapply Hassign; eauto.
  - rewrite delete_expenses. apply Forall_forall. intros e He.
    apply filter_In in He as [He _]. rewrite Forall_forall in IH. now apply IH.
Qed.

Lemma init_trimmed env a c d dt i e :
  Expense.__init__ env a c d dt i = Ok e -> trimmed e.
Proof.
  unfold Expense.__init__. destruct (float_ a); cbn [bindR]; [|discriminate].
  destruct d as [d|]; cbn [bindR]; [|discriminate].
  intros H. injection H as <-. apply strip_idempotent.
Qed.

Lemma assign_trimmed exp kw exp' :
  trimmed exp -> Budget.assign exp kw = Ok exp' -> trimmed exp'.
Proof.
  unfold Budget.assign, trimmed. intros Ht.
  destruct (match Budget.kw_amount kw with
            | Some v => float_ v
            | None => Ok (Expense.amount exp)
            end); cbn [bindR]; [|discriminate].
  intros H. injection H as <-. cbn [Expense.description].
  destruct (Budget.kw_description kw); [apply strip_idempotent | exact Ht].
Qed.

(** X1: in every state reached by loading, adding, updating and
    deleting, no stored description has white space at either end. *)
Theorem reachable_descriptions_trimmed (b : Budget.t) :
  reachable b -> Forall trimmed (Budget.expenses b).
Proof.
  apply reachable_forall.
  - intros env a c d dt i e. apply init_trimmed.
  - intros exp kw exp'. apply assign_trimmed.
Qed.

(** X2: an expense the constructor built, on a day whose text is not
    empty, is what the constructor builds again from its own five
    fields: normalising is idempotent and no new id is drawn. *)
Theorem constructing_again_changes_nothing env a c d dt i e
    (Hbuilt : Expense.__init__ env a c d dt i = Ok e)
    (Hday : today env <> EmptyString) :
  forall env',
    Expense.__init__ env' (AFloat (Expense.amount e))
      (Some (Expense.category e)) (Some (Expense.description e))
      (Some (Expense.date e)) (Some (Expense.id e)) = Ok e.
Proof.
  intros env'.
  destruct (init_well_formed _ _ _ _ _ _ Hbuilt) as [Hid Hcat].
  pose proof (init_trimmed _ _ _ _ _ _ Hbuilt) as Htrim.
  assert (Hdate : Expense.date e <> EmptyString).
  { revert Hbuilt. unfold Expense.__init__.
    destruct (float_ a); cbn [bindR]; [|discriminate].
    destruct d; cbn [bindR]; [|discriminate].
    intros H. injection H as <-. now apply or_nonempty. }
  unfold Expense.__init__, Expense.normalize_category. cbn [float_ bindR].
  apply in_true_iff in Hcat. unfold trimmed in Htrim.
  rewrite Hcat, Htrim, !or_nonempty_left by assumption.
  destruct e; reflexivity.
Qed.

(** The three ways [update] can end. *)
Lemma update_outcome (expense_id : string) (kw : Budget.kwargs)
    (b : Budget.t) :
  (~ In expense_id (ids (Budget.expenses b)) /\
   Budget.update expense_id kw b = (Ok None, b)) \/
  (exists pre exp post x,
     Budget.expenses b = pre ++ exp :: post /\
     Expense.id exp = expense_id /\ ~ In expense_id (ids pre) /\
     Budget.assign exp kw = Raise x /\
     Budget.update expense_id kw b = (Raise x, b)) \/
  (exists pre exp post exp',
     Budget.expenses b = pre ++ exp :: post /\
     Expense.id exp = expense_id /\ ~ In expense_id (ids pre) /\
     Budget.assign exp kw = Ok exp' /\
     Budget.update expense_id kw b =
     (Ok (Some exp'),
      Budget.mk (pre ++ exp' :: post)
                (Some (rows_of_expenses (pre ++ exp' :: post))))).
Proof.
  unfold Budget.update, Budget.bind, Budget.get_expenses.
  destruct (in_dec string_dec expense_id (ids (Budget.expenses b)))
    as [Hin|Hno].
  - right.
    destruct (first_with_id _ _ Hin) as (pre & exp & post & Hl & Hid & Hpre).
    rewrite Hl, update_loop_found by assumption.
    destruct (Budget.assign exp kw) as [exp'|x] eqn:Ha.
    + right. exists pre, exp, post, exp'. rewrite <- Hl. auto 6.
    + left. exists pre, exp, post, x. rewrite <- Hl. auto 6.
  - left. split; [exact Hno|]. now apply update_loop_absent.
Qed.

Lemma absent_filter (expense_id : string) (l : list Expense.t) :
  ~ In expense_id (ids l) ->
  filter (fun e => negb (id_is expense_id e)) l = l.
Proof.
  intros Hno'. pose proof (proj2 (id_is_false_iff expense_id l) Hno') as Hno.
  clear Hno'. induction l as [|x l IH]; simpl; [reflexivity|].
  rewrite (Hno x) by now left. simpl. f_equal. apply IH.
  intros e He. apply Hno. now right.
Qed.

Lemma delete_absent (expense_id : string) (b : Budget.t) :
  ~ In expense_id (ids (Budget.expenses b)) ->
  Budget.delete expense_id b = (Ok false, b).
Proof.
  intros Hno. pose proof (delete_run expense_id b) as H. cbv zeta in H.
  rewrite H, absent_filter by assumption. rewrite Nat.ltb_irrefl.
  destruct b; reflexivity.
Qed.

Lemma kept_has_no_id (expense_id : string) (l : list Expense.t) :
  ~ In expense_id (ids (filter (fun e => negb (id_is expense_id e)) l)).
Proof.
  apply id_is_false_iff. intros e He. apply filter_In in He as [_ He].
  now apply negb_true_iff in He.
Qed.

(** X3: every write leaves the file holding exactly the rows of the list
    in memory: [add] always, [update] when it returns a record, [delete]
    when it answers [True].  A call that writes nothing changed nothing,
    so once the file mirrors the list it does so after every [update]
    and [delete]. *)
Theorem writes_keep_the_file_in_step :
  (forall e b, synced (snd (Budget.add e b))) /\
  (forall expense_id kw b e',
     fst (Budget.update expense_id kw b) = Ok (Some e') ->
     synced (snd (Budget.update expense_id kw b))) /\
  (forall expense_id b,
     fst (Budget.delete expense_id b) = Ok true ->
     synced (snd (Budget.delete expense_id b))) /\
  (forall expense_id kw b,
     synced b -> synced (snd (Budget.update expense_id kw b))) /\
  (forall expense_id b,
     synced b -> synced (snd (Budget.delete expense_id b))).
Proof.
  assert (Hupd : forall expense_id kw b,
            snd (Budget.update expense_id kw b) = b \/
            synced (snd (Budget.update expense_id kw b)) /\
            exists e', fst (Budget.update expense_id kw b) = Ok (Some e')).
  { intros i kw b.
    destruct (update_outcome i kw b)
      as [[_ E]|[(pre & exp & post & x & _ & _ & _ & _ & E)
                |(pre & exp & post & exp' & _ & _ & _ & _ & E)]];
      rewrite E; [now left | now left |].
    right. split; [reflexivity | now exists exp']. }
  assert (Hdel : forall expense_id b,
            (fst (Budget.delete expense_id b) = Ok false /\
             snd (Budget.delete expense_id b) = b) \/
            (fst (Budget.delete expense_id b) = Ok true /\
             synced (snd (Budget.delete expense_id b)))).
  { intros i b. pose proof (delete_run i b) as H. cbv zeta in H.
    destruct (in_dec string_dec i (ids (Budget.expenses b))) as [Hin|Hno].
    - right. rewrite H.
      pose proof (kept_plus_removed i (Budget.expenses b)) as Hsum.
      apply (count_occ_In string_dec) in Hin.
      destruct (Nat.ltb_spec
                  (List.length (filter (fun e => negb (id_is i e))
                                       (Budget.expenses b)))
                  (List.length (Budget.expenses b))) as [_|Hge]; [|lia].
      split; reflexivity.
    - left. rewrite delete_absent by assumption. split; reflexivity. }
  repeat split.
  - intros i kw b e' He.
    destruct (Hupd i kw b) as [E|[Hs _]]; [|exact Hs].
    destruct (update_outcome i kw b)
      as [[_ E']|[(pre & exp & post & x & _ & _ & _ & _ & E')
                 |(pre & exp & post & exp' & _ & _ & _ & _ & E')]];
      rewrite E' in *; try discriminate. reflexivity.
  - intros i b Ht. destruct (Hdel i b) as [[Hf _]|[_ Hs]]; [|exact Hs].
    rewrite Hf in Ht. discriminate.
  - intros i kw b Hb. destruct (Hupd i kw b) as [->|[Hs _]]; assumption.
  - intros i b Hb. destruct (Hdel i b) as [[_ ->]|[_ Hs]]; assumption.
Qed.

(** X4: after [delete(id)] no record has the id; a second [delete(id)]
    answers [False] and an [update(id, ...)] answers [None], both
    leaving the ledger as the first call left it. *)
Theorem deleted_id_is_gone (expense_id : string) (b : Budget.t) :
  let b' := snd (Budget.delete expense_id b) in
  ~ In expense_id (ids (Budget.expenses b')) /\
  Budget.delete expense_id b' = (Ok false, b') /\
  forall kw, Budget.update expense_id kw b' = (Ok None, b').
Proof.
  cbv zeta.
  assert (Hno : ~ In expense_id
                  (ids (Budget.expenses (snd (Budget.delete expense_id b))))).
  { rewrite delete_expenses. apply kept_has_no_id. }
  split; [exact Hno|]. split; [now apply delete_absent|].
  intros kw. destruct (update_outcome expense_id kw
                         (snd (Budget.delete expense_id b)))
    as [[_ E]|[(pre & exp & post & x & Hl & Hid & _)
              |(pre & exp & post & exp' & Hl & Hid & _)]]; [exact E| |];
    exfalso; apply Hno; rewrite Hl; unfold ids; rewrite map_app;
    apply in_or_app; right; left; exact Hid.
Qed.

(** X5: [delete] undoes [add]: when the id of the added expense was not
    in the ledger, deleting that id answers [True] and gives back the
    list of before, written to the file. *)
Theorem delete_undoes_add (e : Expense.t) (b : Budget.t)
    (Hnew : ~ In (Expense.id e) (ids (Budget.expenses b))) :
  Budget.delete (Expense.id e) (snd (Budget.add e b)) =
  (Ok true,
   Budget.mk (Budget.expenses b)
             (Some (rows_of_expenses (Budget.expenses b)))).
Proof.
  rewrite add_run. cbn [snd].
  pose proof (delete_run (Expense.id e)
                (Budget.mk (Budget.expenses b ++ [e])
                   (Some (rows_of_expenses (Budget.expenses b ++ [e])))))
    as H. cbv zeta in H. cbn [Budget.expenses Budget.disk] in H.
  assert (Hself : id_is (Expense.id e) e = true) by apply String.eqb_refl.
  rewrite H. clear H. rewrite filter_app, absent_filter by assumption.
  cbn [filter]. rewrite Hself. cbn [negb].
  rewrite app_nil_r, length_app. cbn [List.length].
  destruct (Nat.ltb_spec (List.length (Budget.expenses b))
              (List.length (Budget.expenses b) + 1)) as [_|Hge];
    [reflexivity | lia].
Qed.

Lemma assign_idempotent exp kw exp' :
  Budget.assign exp kw = Ok exp' -> Budget.assign exp' kw = Ok exp'.
Proof.
  unfold Budget.assign.
  destruct (Budget.kw_category kw) as [c|];
    [destruct (in_ c Expense.CATEGORIES)|];
    destruct (Budget.kw_description kw), (Budget.kw_date kw);
    (destruct (Budget.kw_amount kw) as [v|];
     [destruct (float_ v) as [x|]; cbn [bindR]; [|discriminate]|cbn [bindR]]);
    intros H; injection H as <-; reflexivity.
Qed.

(** X6: [update] is idempotent: when a call returned a record, the same
    call again returns the same record and leaves the ledger, list and
    file, as the first call left it. *)
Theorem update_twice_is_update_once (expense_id : string)
    (kw : Budget.kwargs) (b : Budget.t) (e' : Expense.t)
    (Hfirst : fst (Budget.update expense_id kw b) = Ok (Some e')) :
  Budget.update expense_id kw (snd (Budget.update expense_id kw b)) =
  (Ok (Some e'), snd (Budget.update expense_id kw b)).
Proof.
  destruct (update_outcome expense_id kw b)
    as [[_ E]|[(pre & exp & post & x & _ & _ & _ & _ & E)
              |(pre & exp & post & exp' & Hl & Hid & Hpre & Ha & E)]];
    rewrite E in *; try discriminate.
  cbn [fst snd] in *. injection Hfirst as <-.
  unfold Budget.update, Budget.bind, Budget.get_expenses.
  cbn [Budget.expenses].
  rewrite update_loop_found; [|exact Hpre|].
  - now rewrite (assign_idempotent _ _ Ha).
  - apply assign_frame in Ha as [-> _]. exact Hid.
Qed.

(** X7: [update] never adds, removes or reorders records: the ids of
    the ledger, in order, are those of before, whatever the call
    returns; a record it returns carries the id asked for and is in the
    ledger. *)
Theorem update_keeps_the_shape (expense_id : string) (kw : Budget.kwargs)
    (b : Budget.t) :
  ids (Budget.expenses (snd (Budget.update expense_id kw b)))
    = ids (Budget.expenses b) /\
  List.length (Budget.expenses (snd (Budget.update expense_id kw b)))
    = List.length (Budget.expenses b) /\
  forall e', fst (Budget.update expense_id kw b) = Ok (Some e') ->
    Expense.id e' = expense_id /\
    In e' (Budget.expenses (snd (Budget.update expense_id kw b))).
Proof.
  destruct (update_outcome expense_id kw b)
    as [[_ E]|[(pre & exp & post & x & _ & _ & _ & _ & E)
              |(pre & exp & post & exp' & Hl & Hid & Hpre & Ha & E)]];
    rewrite E; cbn [fst snd Budget.expenses].
  - repeat split; discriminate.
  - repeat split; discriminate.
  - apply assign_frame in Ha as [Hid' _].
    rewrite Hl. unfold ids. rewrite !map_app, !length_app. cbn [map List.length].
    rewrite Hid'. split; [reflexivity|]. split; [reflexivity|].
    intros e' H. injection H as <-. split; [now rewrite Hid'|].
    apply in_or_app. right. now left.
Qed.

Lemma filters_are_selected (category month : option string)
    (l : list Expense.t) :
  by_month_filter month (by_category_filter category l)
  = filter (selected category month) l.
Proof.
  unfold selected, by_month_filter, by_category_filter.
  destruct category as [[|a c]|], month as [[|a' m]|];
    rewrite ?filter_filter_andb;
    first [ apply filter_ext
          | rewrite <- (filter_all l) at 1; apply filter_ext ];
    intros e; rewrite ?startswith_empty, ?andb_true_r; reflexivity.
Qed.



End MoreLedger.

(** ** Dicts *)

Section Dicts.

Variable V : Type.

Lemma get_set_same (k : string) (v : V) (d : dict V) :
  get k (set k v d) = Some v.
Proof.
  induction d as [|[k' v'] d IH]; simpl.
  - now rewrite String.eqb_refl.
  - destruct (String.eqb k k') eqn:E; simpl; rewrite E; [reflexivity|exact IH].
Qed.

Lemma get_set_other (k k' : string) (v : V) (d : dict V) :
  k <> k' -> get k (set k' v d) = get k d.
Proof.
  intros Hne. induction d as [|[k0 v0] d IH]; simpl.
  - destruct (String.eqb_spec k k'); [contradiction | reflexivity].
  - destruct (String.eqb_spec k' k0) as [E|E]; simpl.
    + subst k0. destruct (String.eqb_spec k k'); [contradiction|reflexivity].
    + destruct (String.eqb k k0); [reflexivity | exact IH].
Qed.

Lemma get_none_iff (k : string) (d : dict V) :
  get k d = None <-> ~ In k (map fst d).
Proof.
  induction d as [|[k' v'] d IH]; simpl; [tauto|].
  destruct (String.eqb_spec k k') as [E|E].
  - split; [discriminate|]. intros H. exfalso. apply H. left. now symmetry.
  - rewrite IH. split; [|tauto]. intros H [H'|H']; [|tauto].
    apply E. now symmetry.
Qed.

Lemma set_keys (k : string) (v : V) (d : dict V) :
  map fst (set k v d) =
  if in_dec string_dec k (map fst d) then map fst d else map fst d ++ [k].
Proof.
  induction d as [|[k' v'] d IH]; simpl; [reflexivity|].
  destruct (String.eqb_spec k k') as [E|E]; simpl.
  - destruct (string_dec k' k); [reflexivity|]. now subst.
  - destruct (string_dec k' k) as [E'|E']; [now subst|].
    rewrite IH. destruct (in_dec string_dec k (map fst d)); reflexivity.
Qed.

Lemma get_in (k : string) (v : V) (d : dict V) :
  get k d = Some v -> In (k, v) d.
Proof.
  induction d as [|[k' v'] d IH]; simpl; [discriminate|].
  destruct (String.eqb_spec k k') as [E|E].
  - intros H. injection H as <-. subst. now left.
  - intros H. right. now apply IH.
Qed.

Lemma in_get (k : string) (v : V) (d : dict V) :
  NoDup (map fst d) -> In (k, v) d -> get k d = Some v.
Proof.
  induction d as [|[k' v'] d IH]; simpl; [contradiction|].
  intros Hnd [H|H]; inversion Hnd as [|? ? Hk Hd]; subst.
  - injection H as -> ->. now rewrite String.eqb_refl.
  - destruct (String.eqb_spec k k') as [E|E]; [|now apply IH].
    subst. exfalso. apply Hk. now apply (in_map fst) in H.
Qed.

End Dicts.

(** ** Loading a file *)

Section Loading.

Context `{FT : FloatText}.











End Loading.

(** ** Grouping and sorting *)

Section Grouping.

Import Analytics.
Local Open Scope Q_scope.

Variable key : Expense.t -> string.

Lemma totals_by_fold (l : list Expense.t) :
  totals_by key l = fold_left (group_step key) l [].
Proof. reflexivity. Qed.

Lemma set_fresh (k : string) (v : Q) (d : dict Q) :
  ~ In k (keys d) -> set k v d = d ++ [(k, v)].
Proof.
  induction d as [|[k' v'] d IH]; simpl; intros Hno; [reflexivity|].
  destruct (String.eqb_spec k k') as [E|E].
  - exfalso. apply Hno. left. now symmetry.
  - f_equal. apply IH. intros H. apply Hno. now right.
Qed.

Lemma set_keys_in (k k' : string) (v : Q) (d : dict Q) :
  In k' (keys (set k v d)) <-> k' = k \/ In k' (keys d).
Proof.
  unfold keys. rewrite set_keys.
  destruct (in_dec string_dec k (map fst d)) as [Hin|Hno].
  - split; [tauto|]. intros [->|H]; assumption.
  - rewrite in_app_iff. simpl. split; [intros [H|[H|[]]]; auto|].
    intros [H|H]; auto.
Qed.

Lemma set_keys_distinct (k : string) (v : Q) (d : dict Q) :
  NoDup (keys d) -> NoDup (keys (set k v d)).
Proof.
  unfold keys. rewrite set_keys. intros Hnd.
  destruct (in_dec string_dec k (map fst d)) as [Hin|Hno]; [exact Hnd|].
  apply (Permutation_NoDup (Permutation_cons_append _ _)).
  now constructor.
Qed.

Lemma value_at_set (k k' : string) (v : Q) (d : dict Q) :
  value_at k' (set k v d) = if String.eqb k' k then v else value_at k' d.
Proof.
  unfold value_at. destruct (String.eqb_spec k' k) as [->|E].
  - now rewrite get_set_same.
  - now rewrite get_set_other.
Qed.

Lemma fold_keys_distinct (l : list Expense.t) : forall acc,
  NoDup (keys acc) -> NoDup (keys (fold_left (group_step key) l acc)).
Proof.
  induction l as [|e l IH]; intros acc Hnd; simpl; [exact Hnd|].
  apply IH. now apply set_keys_distinct.
Qed.

Lemma fold_keys_in (l : list Expense.t) : forall acc k,
  In k (keys (fold_left (group_step key) l acc)) <->
  In k (keys acc) \/ exists e, In e l /\ key e = k.
Proof.
  induction l as [|e l IH]; intros acc k; simpl.
  - split; [tauto|]. intros [H|(e & [] & _)]. exact H.
  - rewrite IH. unfold group_step. rewrite set_keys_in. split.
    + intros [[->|H]|(e' & He' & Hk)].
      * right. exists e. auto.
      * now left.
      * right. exists e'. auto.
    + intros [H|(e' & [<-|He'] & Hk)].
      * left. now right.
      * left. left. now symmetry.
      * right. now exists e'.
Qed.

Lemma fold_value_at (l : list Expense.t) : forall acc k,
  value_at k (fold_left (group_step key) l acc)
  == value_at k acc + Budget.sum (amounts_with key k l).
Proof.
  induction l as [|e l IH]; intros acc k; simpl.
  - unfold amounts_with. simpl. rewrite sum_nil. lra.
  - rewrite IH. unfold group_step. rewrite value_at_set.
    unfold amounts_with. simpl. rewrite (String.eqb_sym k (key e)).
    destruct (String.eqb_spec (key e) k) as [E|E]; simpl.
    + rewrite sum_cons, E. lra.
    + lra.
Qed.

Lemma fold_values_sum (l : list Expense.t) : forall acc,
  Budget.sum (map snd (fold_left (group_step key) l acc))
  == Budget.sum (map snd acc) + Budget.sum (map Expense.amount l).
Proof.
  induction l as [|e l IH]; intros acc; simpl.
  - rewrite sum_nil. lra.
  - rewrite IH. unfold group_step, value_at. rewrite set_adds, sum_cons. lra.
Qed.

(** What the grouping loop computes: one entry per key that occurs,
    holding the sum of the amounts of its records. *)
Lemma totals_by_spec (l : list Expense.t) :
  NoDup (keys (totals_by key l)) /\
  (forall k, In k (keys (totals_by key l)) <-> exists e, In e l /\ key e = k) /\
  (forall k, value_at k (totals_by key l) == Budget.sum (amounts_with key k l)) /\
  Budget.sum (map snd (totals_by key l)) == Budget.sum (map Expense.amount l).
Proof.
  rewrite totals_by_fold. split; [|split; [|split]].
  - apply fold_keys_distinct. constructor.
  - intros k. rewrite fold_keys_in. simpl. tauto.
  - intros k. rewrite fold_value_at. unfold value_at. simpl. lra.
  - rewrite fold_values_sum, sum_nil. lra.
Qed.

End Grouping.

Section Sorting.

Import Analytics.
Local Open Scope Q_scope.

Lemma get_permutation (d d' : dict Q) (k : string) :
  Permutation d d' -> NoDup (keys d) -> get k d' = get k d.
Proof.
  intros Hp Hnd.
  assert (Hnd' : NoDup (keys d')).
  { apply (Permutation_NoDup (Permutation_map fst Hp)). exact Hnd. }
  destruct (get k d) as [v|] eqn:E.
  - apply in_get; [exact Hnd'|]. apply (Permutation_in _ Hp).
    now apply get_in.
  - apply get_none_iff. apply get_none_iff in E. intros H. apply E.
    apply (Permutation_in _ (Permutation_sym (Permutation_map fst Hp))).
    exact H.
Qed.

Lemma insert_permutation (x : string * Q) (l : list (string * Q)) :
  Permutation (insert x l) (x :: l).
Proof.
  induction l as [|y l IH]; simpl; [reflexivity|].
  destruct (Qle_bool _ _); [reflexivity|].
  rewrite IH. apply perm_swap.
Qed.

Lemma sorted_permutation (l : list (string * Q)) :
  Permutation (sorted l) l.
Proof.
  induction l as [|x l IH]; simpl; [reflexivity|].
  rewrite insert_permutation. now constructor.
Qed.




Lemma insert_item_permutation (x : string * Q) (l : list (string * Q)) :
  Permutation (insert_item x l) (x :: l).
Proof.
  induction l as [|y l IH]; simpl; [reflexivity|].
  destruct (item_lt y x); [|reflexivity].
  rewrite IH. apply perm_swap.
Qed.

Lemma sorted_items_permutation (l : list (string * Q)) :
  Permutation (sorted_items l) l.
Proof.
  induction l as [|x l IH]; simpl; [reflexivity|].
  rewrite insert_item_permutation. now constructor.
Qed.

Lemma item_lt_asymmetric (a b : string * Q) :
  item_lt a b = true -> item_lt b a = false.
Proof.
  unfold item_lt. rewrite (String.compare_antisym (fst b) (fst a)).
  destruct (String.compare (fst a) (fst b)); simpl; try discriminate;
    [|reflexivity].
  intros H. apply negb_true_iff in H. apply negb_false_iff.
  apply Qle_bool_iff.
  destruct (Qlt_le_dec (snd b) (snd a)) as [H'|H'].
  - assert (H'' : snd b <= snd a) by lra. apply Qle_bool_iff in H''.
    congruence.
  - exact H'.
Qed.

Lemma insert_item_head (y x : string * Q) (l : list (string * Q)) :
  HdRel not_after y l -> not_after y x -> HdRel not_after y (insert_item x l).
Proof.
  intros Hl Hx. destruct l as [|z l]; simpl; [now constructor|].
  destruct (item_lt z x); constructor; [now inversion Hl | exact Hx].
Qed.

Lemma insert_item_sorted (x : string * Q) (l : list (string * Q)) :
  Sorted not_after l -> Sorted not_after (insert_item x l).
Proof.
  induction 1 as [|y l Hl IH Hy]; simpl; [repeat constructor|].
  destruct (item_lt y x) eqn:E.
  - constructor; [exact IH|]. apply insert_item_head; [exact Hy|].
    now apply item_lt_asymmetric.
  - constructor; [now constructor|]. constructor. exact E.
Qed.

Lemma sorted_items_sorted (l : list (string * Q)) :
  Sorted not_after (sorted_items l).
Proof.
  induction l as [|x l IH]; simpl; [constructor|now apply insert_item_sorted].
Qed.

(** With keys that differ, items in order have their keys in strictly
    ascending order. *)
Lemma sorted_keys_ascending (l : list (string * Q)) :
  Sorted not_after l -> NoDup (keys l) ->
  Sorted (fun a b => String.ltb a b = true) (keys l).
Proof.
  induction 1 as [|x l Hl IH Hx]; intros Hnd; simpl; [constructor|].
  inversion Hnd as [|? ? Hk Hnd']; subst.
  constructor; [now apply IH|].
  destruct l as [|y l]; simpl; constructor.
  inversion Hx as [|? ? Hxy]; subst. unfold not_after, item_lt in Hxy.
  unfold String.ltb. rewrite String.compare_antisym.
  destruct (String.compare (fst y) (fst x)) eqn:E; simpl;
    [|discriminate|reflexivity].
  exfalso. apply Hk. apply String.compare_eq_iff in E. rewrite <- E.
  now left.
Qed.

Lemma dict_of_distinct (items : list (string * Q)) :
  NoDup (keys items) -> dict_of items = items.
Proof.
  unfold dict_of.
  assert (H : forall acc, NoDup (keys (acc ++ items)) ->
            fold_left (fun d kv => set (fst kv) (snd kv) d) items acc
            = acc ++ items).
  { induction items as [|[k v] items IH]; intros acc Hnd; simpl.
    - now rewrite app_nil_r.
    - rewrite set_fresh.
      + rewrite IH; rewrite <- app_assoc; [reflexivity | exact Hnd].
      + unfold keys in *. rewrite map_app in Hnd. simpl in Hnd.
        apply NoDup_remove_2 in Hnd. intros H. apply Hnd.
        apply in_or_app. now left. }
  intros Hnd. now apply (H []).
Qed.

(** What [dict(sorted(totals.items()))] is for a grouping: the entries
    of the grouping, by ascending key. *)
Lemma sorted_totals_spec (key : Expense.t -> string) (l : list Expense.t) :
  let d := dict_of (sorted_items (totals_by key l)) in
  Permutation d (totals_by key l) /\
  NoDup (keys d) /\
  Sorted (fun a b => String.ltb a b = true) (keys d) /\
  (forall k, get k d = get k (totals_by key l)).
Proof.
  cbv zeta. destruct (totals_by_spec key l) as (Hnd & _).
  pose proof (sorted_items_permutation (totals_by key l)) as Hp.
  assert (Hnd' : NoDup (keys (sorted_items (totals_by key l)))).
  { apply (Permutation_NoDup
             (Permutation_sym (Permutation_map fst Hp))). exact Hnd. }
  rewrite dict_of_distinct by exact Hnd'.
  split; [exact Hp|]. split; [exact Hnd'|]. split.
  - apply sorted_keys_ascending; [apply sorted_items_sorted | exact Hnd'].
  - intros k. apply get_permutation; [now apply Permutation_sym | exact Hnd].
Qed.

End Sorting.

(** ** The groupings of analytics.py *)

Section Groupings.

Import Analytics.
Local Open Scope Q_scope.

(** X12: [_by_category] has one entry per category that occurs among
    the records and no other; the entry holds the sum, from 0 and in the
    order of the records, of the amounts of the records of that
    category. *)
Theorem by_category_groups (l : list Expense.t) :
  NoDup (keys (_by_category l)) /\
  (forall c, In c (keys (_by_category l)) <->
             exists e, In e l /\ Expense.category e = c) /\
  (forall c, value_at c (_by_category l)
             == Budget.sum (amounts_with Expense.category c l)).
Proof.
  destruct (totals_by_spec Expense.category l) as (Hnd & Hin & Hval & _).
  split; [exact Hnd|]. split; [exact Hin | exact Hval].
Qed.

(** X13: [_by_day] has one entry per date that occurs, the dates in
    strictly ascending order as strings; the entry of a date holds the
    sum, from 0 and in the order of the records, of the amounts of its
    records. *)
Theorem by_day_is_sorted_by_date (l : list Expense.t) :
  Sorted (fun a b => String.ltb a b = true) (keys (_by_day l)) /\
  (forall k, In k (keys (_by_day l)) <->
             exists e, In e l /\ Expense.date e = k) /\
  (forall k, value_at k (_by_day l)
             == Budget.sum (amounts_with Expense.date k l)).
Proof.
  destruct (sorted_totals_spec Expense.date l) as (Hp & Hnd & Hs & Hget).
  destruct (totals_by_spec Expense.date l) as (_ & Hin & Hval & _).
  fold (_by_day l) in *. split; [exact Hs|]. split.
  - intros k. rewrite <- Hin. unfold keys.
    split; apply Permutation_in; apply Permutation_map;
      [exact Hp | now apply Permutation_sym].
  - intros k. unfold value_at. rewrite Hget. apply Hval.
Qed.



(** X14: [_by_month] has one entry per seven-character prefix of a date
    that occurs, the prefixes in strictly ascending order; the entry
    holds the sum, from 0 and in the order of the records, of the
    amounts of the records with that prefix. *)
Theorem by_month_is_sorted_by_month (l : list Expense.t) :
  Sorted (fun a b => String.ltb a b = true) (keys (_by_month l)) /\
  (forall k, In k (keys (_by_month l)) <->
             exists e, In e l /\ substring 0 7 (Expense.date e) = k) /\
  (forall k, value_at k (_by_month l)
             == Budget.sum (amounts_with month_of k l)).
Proof.
  destruct (sorted_totals_spec month_of l) as (Hp & Hnd & Hs & Hget).
  destruct (totals_by_spec month_of l) as (_ & Hin & Hval & _).
  fold (_by_month l) in *. split; [exact Hs|]. split.
  - intros k. fold (month_of). rewrite <- Hin. unfold keys.
    split; apply Permutation_in; apply Permutation_map;
      [exact Hp | now apply Permutation_sym].
  - intros k. unfold value_at. rewrite Hget. apply Hval.
Qed.


Lemma rows_categories (items : list (string * Q)) (total_ : Q) :
  map category
    (map (fun '(cat, amt) =>
            Build_row cat amt
              (if nonzero total_ then round1 (amt / total_ * 100) else 0))
         items)
  = keys items.
Proof.
  unfold keys. rewrite map_map. apply map_ext. now intros [cat amt].
Qed.


(** How [summary] ends, by its parts. *)
Lemma summary_run (month : option string) (b : Budget.t) :
  let l := by_month_filter month (Budget.expenses b) in
  summary month b =
  (Ok (Build_report (Budget.sum (map Expense.amount l)) (List.length l)
         (map (fun '(cat, amt) =>
                 Build_row cat amt
                   (if nonzero (Budget.sum (map Expense.amount l))
                    then round1 (amt / Budget.sum (map Expense.amount l) * 100)
                    else 0))
              (sorted (_by_category l)))), b).
Proof.
  cbv zeta. unfold summary, Budget.bind. rewrite read_all_run.
  cbn [by_category_filter]. rewrite rows_of_run. reflexivity.
Qed.


(** X17: the breakdown of [summary] has one row per category that
    occurs among the records of the month and no other, and the amount
    of a row is the sum of the amounts of the records of its category. *)
Theorem summary_breakdown_rows (month : option string) (b : Budget.t) :
  exists rep l,
    summary month b = (Ok rep, b) /\
    Budget.read_all None month b = (Ok l, b) /\
    NoDup (map category (breakdown rep)) /\
    (forall c, In c (map category (breakdown rep)) <->
               exists e, In e l /\ Expense.category e = c) /\
    (forall r, In r (breakdown rep) ->
               amount r
               == Budget.sum (amounts_with Expense.category (category r) l)).
Proof.
  pose proof (summary_run month b) as H. cbv zeta in H.
  eexists. eexists. split; [exact H|]. rewrite read_all_run.
  cbn [by_category_filter]. split; [reflexivity|]. cbn [breakdown].
  set (l := by_month_filter month (Budget.expenses b)).
  destruct (totals_by_spec Expense.category l) as (Hnd & Hin & Hval & _).
  change (totals_by Expense.category l) with (_by_category l) in *.
  pose proof (sorted_permutation (_by_category l)) as Hp.
  rewrite rows_categories. split; [|split].
  - apply (Permutation_NoDup
             (Permutation_sym (Permutation_map fst Hp))). exact Hnd.
  - intros c. rewrite <- Hin. unfold keys.
    split; apply Permutation_in; apply Permutation_map;
      [exact Hp | now apply Permutation_sym].
  - intros r Hr. apply in_map_iff in Hr as [[cat amt] [<- Hr]].
    cbn [amount category]. rewrite <- Hval.
    apply (Permutation_in _ Hp) in Hr. apply in_get in Hr; [|exact Hnd].
    unfold value_at. rewrite Hr. reflexivity.
Qed.

End Groupings.

(** ** The breakdown and the category filter *)

Section CategoryTotals.

Import Analytics.
Local Open Scope Q_scope.





End CategoryTotals.

(** ** The routes *)

Section Routes.

Context `{FT : FloatText}.

Lemma first_with_absent (expense_id : string) (l : list Expense.t) :
  ~ In expense_id (ids l) -> App.first_with expense_id l = None.
Proof.
  intros Hno. pose proof (proj2 (id_is_false_iff expense_id l) Hno) as H.
  unfold App.first_with. induction l as [|x l IH]; simpl; [reflexivity|].
  pose proof (H x (or_introl eq_refl)) as Hx. unfold id_is in Hx.
  rewrite Hx. apply IH.
  - intros Hin. apply Hno. simpl. now right.
  - intros e He. apply H. now right.
Qed.

Lemma first_with_found (expense_id : string)
    (pre : list Expense.t) (exp : Expense.t) (post : list Expense.t) :
  ~ In expense_id (ids pre) -> Expense.id exp = expense_id ->
  App.first_with expense_id (pre ++ exp :: post) = Some exp.
Proof.
  intros Hno Hid. pose proof (proj2 (id_is_false_iff expense_id pre) Hno) as H.
  unfold App.first_with. clear Hno.
  induction pre as [|x pre IH]; simpl.
  - now rewrite Hid, String.eqb_refl.
  - pose proof (H x (or_introl eq_refl)) as Hx. unfold id_is in Hx.
    rewrite Hx. apply IH. intros e He. apply H. now right.
Qed.

(** X19: [edit] answers 404 with an error body exactly when no record
    has the id; otherwise it answers with the dict of the first record
    that has it.  It never changes the ledger. *)
Theorem edit_shows_the_first_record_with_the_id
    (expense_id : string) (b : Budget.t) :
  (~ In expense_id (ids (Budget.expenses b)) ->
   App.edit expense_id b
   = (Ok (App.Json [("error", Expense.VStr "Not found")] 404), b)) /\
  (In expense_id (ids (Budget.expenses b)) ->
   exists pre exp post,
     Budget.expenses b = pre ++ exp :: post /\
     Expense.id exp = expense_id /\
     ~ In expense_id (ids pre) /\
     App.edit expense_id b = (Ok (App.Json (Expense.to_dict exp) 200), b)).
Proof.
  unfold App.edit, Budget.bind. rewrite read_all_run.
  cbn [by_month_filter by_category_filter]. split.
  - intros Hno. now rewrite first_with_absent.
  - intros Hin.
    destruct (first_with_id _ _ Hin) as (pre & exp & post & Hl & Hid & Hpre).
    exists pre, exp, post. repeat split; auto.
    rewrite Hl, first_with_found by assumption. reflexivity.
Qed.

(** X20: [index] lists, in the order of the ledger, exactly the records
    that match the query: a category argument up to case, a month
    argument as a prefix of the date, an argument that is missing or
    empty not at all.  The total it shows is the sum of the amounts it
    lists, which is [total] for the same filters, and the ledger is left
    as it was. *)
Theorem index_lists_what_the_query_selects
    (args : dict string) (b : Budget.t) :
  let category := App.if_given (App.arg "category" args) in
  let month := App.if_given (App.arg "month" args) in
  exists ctx,
    App.index args b = (Ok (App.Render "index.html" ctx), b) /\
    App.expenses ctx
      = filter (selected_as_stated category month) (Budget.expenses b) /\
    App.total ctx = Budget.sum (map Expense.amount (App.expenses ctx)) /\
    Budget.total category month b = (Ok (App.total ctx), b) /\
    App.selected_category ctx = App.arg "category" args /\
    App.selected_month ctx = App.arg "month" args.
Proof.
  cbv zeta. unfold App.index, Budget.bind. rewrite read_all_run, total_run.
  eexists. split; [reflexivity|]. cbn [App.expenses App.total
    App.selected_category App.selected_month].
  split; [|repeat split].
  rewrite filters_are_selected. apply filter_ext. intros e.
  unfold selected, selected_as_stated.
  destruct (App.arg "category" args) as [|c0 c]; reflexivity.
Qed.

(** X21: the route [delete] flashes ["Expense deleted."] as a success
    exactly when some record had the id, and then no record has it any
    more; otherwise it flashes ["Not found."] as a danger and leaves the
    ledger as it was.  Either way it redirects to the index. *)
Theorem delete_route_reports_what_happened
    (expense_id : string) (b : Budget.t) :
  (In expense_id (ids (Budget.expenses b)) ->
   exists b',
     App.delete expense_id b
     = (Ok (("Expense deleted.", "success"), App.Redirect "index"), b') /\
     ~ In expense_id (ids (Budget.expenses b'))) /\
  (~ In expense_id (ids (Budget.expenses b)) ->
   App.delete expense_id b
   = (Ok (("Not found.", "danger"), App.Redirect "index"), b)).
Proof.
  unfold App.delete, Budget.bind. split.
  - intros Hin. pose proof (delete_run expense_id b) as H. cbv zeta in H.
    pose proof (kept_plus_removed expense_id (Budget.expenses b)) as Hsum.
    apply (count_occ_In string_dec) in Hin.
    destruct (Nat.ltb_spec
                (List.length (filter (fun e => negb (id_is expense_id e))
                                     (Budget.expenses b)))
                (List.length (Budget.expenses b))) as [_|Hge]; [|lia].
    rewrite H. eexists. split; [reflexivity|]. apply kept_has_no_id.
  - intros Hno. now rewrite delete_absent.
Qed.

End Routes.

(** ** The further properties at the sample data *)

Section MoreRuns.

Import DecimalText.
Import Sample.
Import SampleFiles.

Lemma ledger_ids : ids (Budget.expenses ledger) = ["a1"; "b2"; "c3"].
Proof. reflexivity. Qed.

(** X1 at the scenario. *)
Lemma reachable_descriptions_trimmed_witness :
  reachable ledger /\ Forall trimmed (Budget.expenses ledger).
Proof.
  split; [exact reachable_ledger|].
  exact (reachable_descriptions_trimmed reachable_ledger).
Defined.

(** X2 at the first record of the scenario. *)
Lemma constructing_again_changes_nothing_witness :
  Expense.__init__ env (AFloat 100) (Some "Food") (Some " lunch ")
    (Some "2024-05-01") (Some "a1") = Ok lunch /\
  today env <> EmptyString /\
  Expense.__init__ env (AFloat (Expense.amount lunch))
    (Some (Expense.category lunch)) (Some (Expense.description lunch))
    (Some (Expense.date lunch)) (Some (Expense.id lunch)) = Ok lunch.
Proof.
  assert (Hbuilt : Expense.__init__ env (AFloat 100) (Some "Food")
                     (Some " lunch ") (Some "2024-05-01") (Some "a1")
                   = Ok lunch) by reflexivity.
  assert (Hday : today env <> EmptyString) by discriminate.
  split; [exact Hbuilt|]. split; [exact Hday|].
  exact (constructing_again_changes_nothing _ _ _ _ _ _ Hbuilt Hday env).
Defined.

(** X3 at an [update] that returns a record and at a [delete] that
    finds nothing. *)
Lemma writes_keep_the_file_in_step_witness :
  (fst (Budget.update "b2" new_amount ledger) = Ok (Some tram) /\
   synced (snd (Budget.update "b2" new_amount ledger))) /\
  (synced ledger /\ synced (snd (Budget.delete "zz" ledger))).
Proof.
  assert (Hret : fst (Budget.update "b2" new_amount ledger) = Ok (Some tram))
    by (vm_compute; reflexivity).
  assert (Hs : synced ledger) by reflexivity.
  destruct writes_keep_the_file_in_step as (_ & Hupd & _ & _ & Hdel).
  split; (split; [assumption|]).
  - exact (Hupd _ _ _ _ Hret).
  - exact (Hdel "zz" _ Hs).
Defined.

(** X5 at the scenario: the third record added, then deleted. *)
Lemma delete_undoes_add_witness :
  ~ In (Expense.id groceries) (ids (Budget.expenses two)) /\
  Budget.delete (Expense.id groceries) (snd (Budget.add groceries two)) =
  (Ok true,
   Budget.mk (Budget.expenses two)
             (Some (rows_of_expenses (Budget.expenses two)))).
Proof.
  assert (Hnew : ~ In (Expense.id groceries) (ids (Budget.expenses two))).
  { change (ids (Budget.expenses two)) with ["a1"; "b2"].
    simpl. intuition discriminate. }
  split; [exact Hnew | exact (delete_undoes_add groceries two Hnew)].
Defined.

(** X6 at the update of [bus]. *)
Lemma update_twice_is_update_once_witness :
  fst (Budget.update "b2" new_amount ledger) = Ok (Some tram) /\
  Budget.update "b2" new_amount (snd (Budget.update "b2" new_amount ledger))
  = (Ok (Some tram), snd (Budget.update "b2" new_amount ledger)).
Proof.
  assert (Hret : fst (Budget.update "b2" new_amount ledger) = Ok (Some tram))
    by (vm_compute; reflexivity).
  split; [exact Hret|].
  exact (update_twice_is_update_once "b2" new_amount ledger Hret).
Defined.

(** X7 at the update of [bus]. *)
Lemma update_keeps_the_shape_witness :
  fst (Budget.update "b2" new_amount ledger) = Ok (Some tram) /\
  Expense.id tram = "b2" /\
  In tram (Budget.expenses (snd (Budget.update "b2" new_amount ledger))).
Proof.
  assert (Hret : fst (Budget.update "b2" new_amount ledger) = Ok (Some tram))
    by (vm_compute; reflexivity).
  split; [exact Hret|].
  destruct (update_keeps_the_shape "b2" new_amount ledger) as (_ & _ & H).
  exact (H tram Hret).
Defined.



Example rows_loaded :
  Budget.expenses
    (snd (Budget.__init__ (fun _ => env) (Some (Budget.FIELDNAMES :: rows))))
  = [lunch; Expense.mk "3f2a9c4e" (29 # 4) "Other" "tea" "2024-07-01"].
Proof. vm_compute. reflexivity. Qed.




Example scenario_by_day :
  keys (Analytics._by_day [groceries; bus; lunch])
  = ["2024-05-01"; "2024-05-02"; "2024-06-01"].
Proof. reflexivity. Qed.


(** X19 at an id the ledger does not have and at the id of [bus]. *)
Lemma edit_shows_the_first_record_with_the_id_witness :
  (~ In "zz" (ids (Budget.expenses ledger)) /\
   App.edit "zz" ledger
   = (Ok (App.Json [("error", Expense.VStr "Not found")] 404), ledger)) /\
  (In "b2" (ids (Budget.expenses ledger)) /\
   exists pre exp post,
     Budget.expenses ledger = pre ++ exp :: post /\
     Expense.id exp = "b2" /\
     ~ In "b2" (ids pre) /\
     App.edit "b2" ledger = (Ok (App.Json (Expense.to_dict exp) 200), ledger)).
Proof.
  assert (Hno : ~ In "zz" (ids (Budget.expenses ledger))).
  { rewrite ledger_ids. simpl. intuition discriminate. }
  assert (Hin : In "b2" (ids (Budget.expenses ledger))).
  { rewrite ledger_ids. right. left. reflexivity. }
  split; (split; [assumption|]).
  - exact (proj1 (edit_shows_the_first_record_with_the_id "zz" ledger) Hno).
  - exact (proj2 (edit_shows_the_first_record_with_the_id "b2" ledger) Hin).
Defined.

Example scenario_index :
  exists ctx,
    fst (App.index query ledger) = Ok (App.Render "index.html" ctx) /\
    App.expenses ctx = [lunch; groceries] /\ App.total ctx = 300%Q.
Proof. eexists. split; [reflexivity|]. split; vm_compute; reflexivity. Qed.

(** X21 at the id of [bus] and at an id the ledger does not have. *)
Lemma delete_route_reports_what_happened_witness :
  (In "b2" (ids (Budget.expenses ledger)) /\
   exists b',
     App.delete "b2" ledger
     = (Ok (("Expense deleted.", "success"), App.Redirect "index"), b') /\
     ~ In "b2" (ids (Budget.expenses b'))) /\
  (~ In "zz" (ids (Budget.expenses ledger)) /\
   App.delete "zz" ledger
   = (Ok (("Not found.", "danger"), App.Redirect "index"), ledger)).
Proof.
  assert (Hno : ~ In "zz" (ids (Budget.expenses ledger))).
  { rewrite ledger_ids. simpl. intuition discriminate. }
  assert (Hin : In "b2" (ids (Budget.expenses ledger))).
  { rewrite ledger_ids. right. left. reflexivity. }
  split; (split; [assumption|]).
  - exact (proj1 (delete_route_reports_what_happened "b2" ledger) Hin).
  - exact (proj2 (delete_route_reports_what_happened "zz" ledger) Hno).
Defined.

End MoreRuns.

(** ** The percent of a row, on doubles *)

Section RoundedShare.

Import Doubles.





Variable sum_ : list float -> float.
Variable sorted_ : list (string * float) -> list (string * float).


End RoundedShare.

Section DoubleRuns.

Import Doubles.
Import SampleDoubles.

(** The worked scenario on doubles: 85.7 and 14.3 per cent. *)
Example scenario_on_doubles :
  summary Doubles.sum Doubles.sorted scenario
  = Ok (Build_report 350 3
          [Build_row "Food" 300 (857 / 10); Build_row "Transport" 50 (143 / 10)])%float.
Proof. vm_compute. reflexivity. Qed.

(** [round(23 / 80 * 100, 1)] is 28.7 on doubles, where the exact
    quotient 28.75 would go to 28.8. *)
Example round1_follows_the_double :
  round1 (23 / 80 * 100)%float = (287 / 10)%float.
Proof. vm_compute. reflexivity. Qed.



End DoubleRuns.
